(** * CO2 tracker: a shallow embedding of [co2_tracker/co2_tracker.py] and of
    [co2_tracker/viz/data.py] (cloud bar-chart data).

    Conventions of the embedding.
    - Python [float] and [int] magnitudes (energy, power, time, emission
      factors) are exact rationals [Q]: arithmetic is the real-number
      arithmetic the formulas denote, IEEE rounding is not part of the model.
      Equalities between computed magnitudes are therefore [Qeq] ([==]).
    - [Optional[str]] is [option string]; [None] is Rocq's [None].
    - A method is a function of [self] that returns the updated [self]
      (explicit state passing); what it does to the outside (log records,
      scheduler commands, sink writes) is appended to the [events] of a
      [World], threaded by the monad [M].  A Python exception is the
      [Raise] outcome: it aborts the rest of the method. *)

From Stdlib Require Import QArith ZArith List Ascii String Bool Lia Lqa.
Import ListNotations.
Local Open Scope string_scope.
Local Open Scope Q_scope.

(** ** Value types ([co2_tracker/units.py], imported by both sources)

    Each type wraps one magnitude in a fixed unit.  The data model admits
    non-negative magnitudes only; the rejection of a negative one is no part
    of this model, and the statements below hold of the formulas for every
    magnitude, the non-negative ones in particular. *)

Module Time.
(** Modelled from the spec: the [Time] value type of [co2_tracker.units]
    (the module is not among the sources): one magnitude in seconds. *)
Record t : Type := Build { seconds : Q }.

Definition from_seconds (s : Q) : t := {| seconds := s |}.
End Time.

Module Power.
(** Modelled from the spec: the [Power] value type of [co2_tracker.units],
    the reading in watts reported by the hardware source at a sampling
    instant. *)
Record t : Type := Build { watts : Q }.

Definition from_watts (w : Q) : t := {| watts := w |}.
End Power.

Module Energy.
(** Modelled from the spec: the [Energy] value type of [co2_tracker.units]:
    one magnitude in kWh, addition sums the magnitudes, and
    [from_power_and_time(power, duration) =
       power(W) * duration(s) / 3600 / 1000]. *)
Record t : Type := Build { kwh : Q }.

Definition from_energy (k : Q) : t := {| kwh := k |}.

Definition from_power_and_time (power : Power.t) (time : Time.t) : t :=
  {| kwh := Power.watts power * Time.seconds time / 3600 / 1000 |}.

Definition add (a b : t) : t := {| kwh := kwh a + kwh b |}.
End Energy.

Module CO2EmissionsPerKwh.
(** Modelled from the spec: the emission-factor value type of
    [co2_tracker.units]; factors are kept in kg CO2/kWh and a factor given
    in g CO2/kWh is converted by [kg = g / 1000]. *)
Record t : Type := Build { kgs_per_kwh : Q }.

Definition from_g_per_kwh (g : Q) : t := {| kgs_per_kwh := g / 1000 |}.
End CO2EmissionsPerKwh.

(** ** Geographic and cloud metadata ([co2_tracker/external/geography.py]) *)

(** [str.upper()] and [str.lower()] on ASCII text.  Bytes from 128 up are
    left as they are (Python also maps non-ASCII letters), so statements
    about them are made for ASCII strings. *)
Definition upper_char (c : ascii) : ascii :=
  let n := nat_of_ascii c in
  if andb (Nat.leb 97 n) (Nat.leb n 122) then ascii_of_nat (n - 32) else c.

Definition lower_char (c : ascii) : ascii :=
  let n := nat_of_ascii c in
  if andb (Nat.leb 65 n) (Nat.leb n 90) then ascii_of_nat (n + 32) else c.

Fixpoint upper (s : string) : string :=
  match s with
  | EmptyString => EmptyString
  | String c rest => String (upper_char c) (upper rest)
  end.

Fixpoint lower (s : string) : string :=
  match s with
  | EmptyString => EmptyString
  | String c rest => String (lower_char c) (lower rest)
  end.

Fixpoint is_ascii (s : string) : bool :=
  match s with
  | EmptyString => true
  | String c rest => andb (Nat.ltb (nat_of_ascii c) 128) (is_ascii rest)
  end.


Module GeoMetadata.
(** Modelled from the spec: [GeoMetadata] of [co2_tracker.external.geography]
    (not among the sources): three optional strings. *)
Record t : Type := Build {
  country_iso_code : option string;
  country_name : option string;
  region : option string
}.

(** Modelled from the spec: the constructor [GeoMetadata(country_iso_code=...,
    country_name=..., region=...)]; the code it holds is the upper-case one,
    name and region are kept as given. *)
Definition __init__ (country_iso_code : string)
    (country_name region : option string) : t :=
  {| country_iso_code := Some (upper country_iso_code);
     country_name := country_name;
     region := region |}.
End GeoMetadata.

Module CloudMetadata.
(** Modelled from the spec: [CloudMetadata] of
    [co2_tracker.external.geography]: an optional provider and an optional
    region. *)
Record t : Type := Build {
  provider : option string;
  region : option string
}.

(** Modelled from the spec: the property [is_on_private_infra] of
    [CloudMetadata], true iff the provider is absent. *)
Definition is_on_private_infra (cloud : t) : bool :=
  match provider cloud with
  | None => true
  | Some _ => false
  end.
End CloudMetadata.

(** ** The emissions record and the sinks ([co2_tracker/output.py]) *)

Module CO2Data.
(** The keyword arguments of the [CO2Data(...)] call in [stop], in order. *)
Record t : Type := Build {
  timestamp : string;
  experiment_id : string;
  project_name : string;
  duration : Q;
  emissions : Q;
  energy_consumed : Q;
  country_name : option string;
  country_iso_code : option string;
  region : option string;
  on_cloud : string;
  cloud_provider : option string;
  cloud_region : option string
}.
End CO2Data.

(** A registered sink.  The tracker itself only ever creates [FileOutput];
    [persistence_objs] is an arbitrary list of sinks. *)
Inductive BaseOutput : Type :=
| FileOutput (save_file_path : string).

(** ** Outcomes, events and the world *)

(** Python exceptions: the one raised by the sources themselves, those of
    the scheduler, and the ones a collaborator may raise. *)
Inductive exn : Type :=
| Exception (msg : string)
| IndexError (msg : string)
| SchedulerNotRunningError
| SchedulerAlreadyRunningError
| CollaboratorError (what : string).

Inductive outcome (A : Type) : Type :=
| Return (a : A)
| Raise (e : exn).
Arguments Return {A} a.
Arguments Raise {A} e.

(** What a method does to the outside, in program order.  [EnergyRead] marks
    an evaluation of [self._total_energy] inside [stop]; [Out sink data] is
    a call [sink.out(data)] that returned. *)
Inductive event : Type :=
| LogWarning (msg : string)
| LogError (msg : string)
| SchedulerStart
| SchedulerShutdown
| EnergyRead (e : Energy.t)
| Out (sink : BaseOutput) (data : CO2Data.t).

(** The part of the process state outside the tracker object: the clock
    ([time.time()]), the formatted wall-clock time
    ([datetime.now().strftime(...)]), the next [uuid.uuid4()], the I/O error,
    if any, that a sink meets when it is given a record, and the events so
    far, oldest first. *)
Record World : Type := {
  time_time : Q;
  datetime_now : string;
  uuid4 : string;
  io_error : BaseOutput -> CO2Data.t -> option exn;
  events : list event
}.

(** The world after some more events. *)
Definition extend (evs : list event) (w : World) : World :=
  {| time_time := time_time w;
     datetime_now := datetime_now w;
     uuid4 := uuid4 w;
     io_error := io_error w;
     events := events w ++ evs |}.

Definition emit_world (e : event) (w : World) : World := extend [e] w.

(** The monad of methods: a world transformer that returns or raises. *)
Definition M (A : Type) : Type := World -> outcome A * World.

Definition ret {A} (a : A) : M A := fun w => (Return a, w).

Definition bind {A B} (c : M A) (k : A -> M B) : M B :=
  fun w =>
    match c w with
    | (Return a, w') => k a w'
    | (Raise e, w') => (Raise e, w')
    end.

Definition raise {A} (e : exn) : M A := fun w => (Raise e, w).

Definition emit (e : event) : M unit := fun w => (Return tt, emit_world e w).

(** The result of a collaborator call: its value, or its exception
    propagated. *)
Definition call {A} (r : outcome A) : M A := fun w => (r, w).

Definition read {A} (f : World -> A) : M A := fun w => (Return (f w), w).

Notation "x <- c ;; k" := (bind c (fun x => k))
  (at level 61, c at next level, right associativity).
Notation "c ;; k" := (bind c (fun _ => k))
  (at level 61, right associativity).

(** Runs the monadic operations in the goal down to pairs. *)
Ltac run_monad :=
  repeat (unfold bind, ret, raise, emit, call, read, emit_world;
          cbv beta iota).

(** [for x in xs: body(x)] *)
Fixpoint for_each {A} (body : A -> M unit) (xs : list A) : M unit :=
  match xs with
  | [] => ret tt
  | x :: rest => body x ;; for_each body rest
  end.

Definition logger_warning (msg : string) : M unit := emit (LogWarning msg).
Definition logging_error (msg : string) : M unit := emit (LogError msg).

(** Modelled from the spec: the sink interface [out(record) -> void] of
    [co2_tracker.output] (not among the sources), which may fail with an I/O
    error: the call either returns, the record written, or raises. *)
Definition out (sink : BaseOutput) (data : CO2Data.t) : M unit :=
  fun w =>
    match io_error w sink data with
    | None => (Return tt, emit_world (Out sink data) w)
    | Some error => (Raise error, w)
    end.

(** The sink writes among some events, in order. *)
Fixpoint written (evs : list event) : list (BaseOutput * CO2Data.t) :=
  match evs with
  | [] => []
  | Out sink data :: rest => (sink, data) :: written rest
  | _ :: rest => written rest
  end.

(** ** The background scheduler (apscheduler's [BackgroundScheduler]) *)

Module BackgroundScheduler.
(** The periodic-task capability: the interval, in seconds, of each job
    added with [add_job(..., "interval", seconds=...)] (the job function is
    always the tracker's [_measure_power]) and whether the scheduler runs. *)
Record t : Type := Build {
  jobs : list Z;
  running : bool
}.

Definition new : t := {| jobs := []; running := false |}.

Definition add_job (seconds : Z) (s : t) : t :=
  {| jobs := jobs s ++ [seconds]; running := running s |}.

(** [start()] raises on a scheduler that runs already, [shutdown()] on one
    that does not run. *)
Definition start (s : t) : M t :=
  if running s then raise SchedulerAlreadyRunningError
  else emit SchedulerStart ;; ret {| jobs := jobs s; running := true |}.

Definition shutdown (s : t) : M t :=
  if running s
  then emit SchedulerShutdown ;; ret {| jobs := jobs s; running := false |}
  else raise SchedulerNotRunningError.
End BackgroundScheduler.

(** ** Collaborators of the tracker *)

(** What the tracker calls outside the two sources: capability detection
    ([is_gpu_details_available]), the metadata resolvers of the auto-detecting
    tracker, and the emissions calculator ([co2_tracker.emissions.Emissions]).
    Each is taken as given; a call that fails raises. *)
Record Env : Type := {
  is_gpu_details_available : bool;
  geo_js_url : string;
  from_geo_js : string -> outcome GeoMetadata.t;
  from_co2_tracker_utils : outcome CloudMetadata.t;
  get_private_infra_emissions : Energy.t -> GeoMetadata.t -> outcome Q;
  get_cloud_emissions : Energy.t -> CloudMetadata.t -> outcome Q;
  get_cloud_country_name : CloudMetadata.t -> outcome (option string);
  get_cloud_country_iso_code : CloudMetadata.t -> outcome (option string);
  get_cloud_geo_region : CloudMetadata.t -> outcome (option string)
}.

(** [os.path.join(a, b)] on POSIX paths. *)
Fixpoint ends_with_slash (s : string) : bool :=
  match s with
  | EmptyString => false
  | String c EmptyString => Ascii.eqb c "/"%char
  | String _ rest => ends_with_slash rest
  end.

Definition starts_with_slash (s : string) : bool :=
  match s with
  | String c _ => Ascii.eqb c "/"%char
  | EmptyString => false
  end.

Definition os_path_join (a b : string) : string :=
  if starts_with_slash b then b
  else if orb (String.eqb a "") (ends_with_slash a) then a ++ b
  else a ++ "/" ++ b.

(** ** [BaseCO2Tracker] and its two concrete classes *)

Module BaseCO2Tracker.

(** The two implementations of the abstract methods [_get_geo_metadata] and
    [_get_cloud_metadata], with the attributes the offline one adds. *)
Inductive subclass : Type :=
| OfflineCO2Tracker (_country_iso_code _country_name : string)
                    (_region : option string)
| CO2Tracker.

(** The attributes set by [__init__].  The handles [_hardware],
    [_data_source] and [_emissions] are the collaborators of [Env]. *)
Record t : Type := Build {
  _project_name : string;
  _measure_power_secs : Z;
  _start_time : option Q;
  _output_dir : string;
  _total_energy : Energy.t;
  _scheduler : BackgroundScheduler.t;
  _is_gpu_available : bool;
  persistence_objs : list BaseOutput;
  class : subclass
}.

Definition set_start_time (self : t) (v : option Q) : t :=
  {| _project_name := _project_name self;
     _measure_power_secs := _measure_power_secs self;
     _start_time := v;
     _output_dir := _output_dir self;
     _total_energy := _total_energy self;
     _scheduler := _scheduler self;
     _is_gpu_available := _is_gpu_available self;
     persistence_objs := persistence_objs self;
     class := class self |}.

Definition set_total_energy (self : t) (v : Energy.t) : t :=
  {| _project_name := _project_name self;
     _measure_power_secs := _measure_power_secs self;
     _start_time := _start_time self;
     _output_dir := _output_dir self;
     _total_energy := v;
     _scheduler := _scheduler self;
     _is_gpu_available := _is_gpu_available self;
     persistence_objs := persistence_objs self;
     class := class self |}.

Definition set_scheduler (self : t) (v : BackgroundScheduler.t) : t :=
  {| _project_name := _project_name self;
     _measure_power_secs := _measure_power_secs self;
     _start_time := _start_time self;
     _output_dir := _output_dir self;
     _total_energy := _total_energy self;
     _scheduler := v;
     _is_gpu_available := _is_gpu_available self;
     persistence_objs := persistence_objs self;
     class := class self |}.

(** [BaseCO2Tracker.__init__]; [cls] is the concrete class being built. *)
Definition __init__ (env : Env) (cls : subclass)
    (project_name : string) (measure_power_secs : Z)
    (output_dir : string) (save_to_file : bool) : t :=
  {| _project_name := project_name;
     _measure_power_secs := measure_power_secs;
     _start_time := None;
     _output_dir := output_dir;
     _total_energy := Energy.from_energy 0;
     _scheduler :=
       BackgroundScheduler.add_job measure_power_secs BackgroundScheduler.new;
     _is_gpu_available := is_gpu_details_available env;
     persistence_objs :=
       if save_to_file
       then [] ++ [FileOutput (os_path_join output_dir "emissions.csv")]
       else [];
     class := cls |}.

Definition start (self : t) : M t :=
  if negb (_is_gpu_available self) then
    logger_warning "No GPU available" ;;
    ret self
  else
    match _start_time self with
    | Some _ =>
        logger_warning "Already started tracking" ;;
        ret self
    | None =>
        now <- read time_time ;;
        let self := set_start_time self (Some now) in
        sched <- BackgroundScheduler.start (_scheduler self) ;;
        ret (set_scheduler self sched)
    end.

(** The two abstract methods, dispatched on the concrete class.  They touch
    neither [self] nor the world: each returns its metadata or raises. *)
Definition _get_geo_metadata (env : Env) (self : t) : outcome GeoMetadata.t :=
  match class self with
  | OfflineCO2Tracker iso name region =>
      Return (GeoMetadata.__init__ iso (Some name) region)
  | CO2Tracker => from_geo_js env (geo_js_url env)
  end.

Definition _get_cloud_metadata (env : Env) (self : t)
    : outcome CloudMetadata.t :=
  match class self with
  | OfflineCO2Tracker _ _ _ =>
      Return {| CloudMetadata.provider := None;
                CloudMetadata.region := None |}
  | CO2Tracker => from_co2_tracker_utils env
  end.

(** An evaluation of [self._total_energy] inside [stop]. *)
Definition read_total_energy (self : t) : M Energy.t :=
  emit (EnergyRead (_total_energy self)) ;;
  ret (_total_energy self).

(** The local variables assigned by the two branches of [stop]. *)
Record locals : Type := Locals {
  emissions : Q;
  country_name : option string;
  country_iso_code : option string;
  region : option string;
  on_cloud : string;
  cloud_provider : option string;
  cloud_region : option string
}.

(** The [if cloud.is_on_private_infra: ... else: ...] statement of [stop]. *)
Definition footprint (env : Env) (self : t)
    (cloud : CloudMetadata.t) (geo : GeoMetadata.t) : M locals :=
  if CloudMetadata.is_on_private_infra cloud then
    energy <- read_total_energy self ;;
    emissions <- call (get_private_infra_emissions env energy geo) ;;
    ret {| emissions := emissions;
           country_name := GeoMetadata.country_name geo;
           country_iso_code := GeoMetadata.country_iso_code geo;
           region := GeoMetadata.region geo;
           on_cloud := "N";
           cloud_provider := Some "";
           cloud_region := Some "" |}
  else
    energy <- read_total_energy self ;;
    emissions <- call (get_cloud_emissions env energy cloud) ;;
    country_name <- call (get_cloud_country_name env cloud) ;;
    country_iso_code <- call (get_cloud_country_iso_code env cloud) ;;
    region <- call (get_cloud_geo_region env cloud) ;;
    ret {| emissions := emissions;
           country_name := country_name;
           country_iso_code := country_iso_code;
           region := region;
           on_cloud := "Y";
           cloud_provider := CloudMetadata.provider cloud;
           cloud_region := CloudMetadata.region cloud |}.

(** The [CO2Data(...)] call of [stop]. *)
Definition assemble (self : t) (duration : Time.t) (v : locals) : M CO2Data.t :=
  timestamp <- read datetime_now ;;
  experiment_id <- read uuid4 ;;
  energy <- read_total_energy self ;;
  ret {| CO2Data.timestamp := timestamp;
         CO2Data.experiment_id := experiment_id;
         CO2Data.project_name := _project_name self;
         CO2Data.duration := Time.seconds duration;
         CO2Data.emissions := emissions v;
         CO2Data.energy_consumed := Energy.kwh energy;
         CO2Data.country_name := country_name v;
         CO2Data.country_iso_code := country_iso_code v;
         CO2Data.region := region v;
         CO2Data.on_cloud := on_cloud v;
         CO2Data.cloud_provider := cloud_provider v;
         CO2Data.cloud_region := cloud_region v |}.

Definition stop (env : Env) (self : t) : M (option Q * t) :=
  match _start_time self with
  | None =>
      logging_error "Need to first start the tracker" ;;
      ret (None, self)
  | Some started =>
      sched <- BackgroundScheduler.shutdown (_scheduler self) ;;
      let self := set_scheduler self sched in
      cloud <- call (_get_cloud_metadata env self) ;;
      geo <- call (_get_geo_metadata env self) ;;
      now <- read time_time ;;
      let duration := Time.from_seconds (now - started) in
      v <- footprint env self cloud geo ;;
      data <- assemble self duration v ;;
      for_each (fun persistence => out persistence data)
               (persistence_objs self) ;;
      ret (Some (emissions v), self)
  end.

(** [_measure_power]; [power] is the reading [self._hardware.total_power]. *)
Definition _measure_power (power : Power.t) (self : t) : t :=
  set_total_energy self
    (Energy.add (_total_energy self)
       (Energy.from_power_and_time power
          (Time.from_seconds (inject_Z (_measure_power_secs self))))).

(** One period of the scheduler: every job runs once while the scheduler
    runs, none once it is shut down (or before it is started). *)
Definition tick (power : Power.t) (self : t) : t :=
  if BackgroundScheduler.running (_scheduler self)
  then fold_left (fun acc _ => _measure_power power acc)
                 (BackgroundScheduler.jobs (_scheduler self)) self
  else self.

(** The sampler over the sequence of readings of successive periods. *)
Definition sample (readings : list Power.t) (self : t) : t :=
  fold_left (fun acc power => tick power acc) readings self.

End BaseCO2Tracker.

Module OfflineCO2Tracker.
(** [OfflineCO2Tracker.__init__]: the two identifiers, then the arguments of
    the base class. *)
Definition __init__ (env : Env)
    (country_iso_code country_name : option string) (region : option string)
    (project_name : string) (measure_power_secs : Z)
    (output_dir : string) (save_to_file : bool) : BaseCO2Tracker.t :=
  let _country_iso_code :=
    match country_iso_code with None => "CAN" | Some code => code end in
  let _country_name :=
    match country_name with None => "Canada" | Some name => name end in
  BaseCO2Tracker.__init__ env
    (BaseCO2Tracker.OfflineCO2Tracker _country_iso_code _country_name region)
    project_name measure_power_secs output_dir save_to_file.
End OfflineCO2Tracker.

Module CO2Tracker.
(** [CO2Tracker] inherits [__init__] unchanged. *)
Definition __init__ (env : Env)
    (project_name : string) (measure_power_secs : Z)
    (output_dir : string) (save_to_file : bool) : BaseCO2Tracker.t :=
  BaseCO2Tracker.__init__ env BaseCO2Tracker.CO2Tracker
    project_name measure_power_secs output_dir save_to_file.
End CO2Tracker.

(** ** The decorator [track_co2] *)

(** Python values passed to and returned by a decorated function. *)
Inductive pyval : Type :=
| PyNone
| PyBool (b : bool)
| PyInt (z : Z)
| PyFloat (q : Q)
| PyStr (s : string).

(** A callable: positional arguments, keyword arguments, an effect on the
    world and a value or an exception. *)
Definition Callable : Type := list pyval -> list (string * pyval) -> M pyval.

(** The keyword parameters of [track_co2]. *)
Record decorator_args : Type := {
  project_name : string;
  output_dir : string;
  offline : bool;
  country_iso_code : option string;
  country_name : option string;
  region : option string
}.

(** Defaults of [BaseCO2Tracker.__init__] that the decorator does not
    override. *)
Definition default_measure_power_secs : Z := 15.
Definition default_save_to_file : bool := true.

(** [wrapped_fn] of [track_co2._decorate].  [readings] are the power readings
    of the sampler periods that elapse while [fn] runs. *)
Definition wrapped_fn (env : Env) (a : decorator_args)
    (readings : list Power.t) (fn : Callable) : Callable :=
  fun args kwargs =>
    if offline a then
      match country_iso_code a with
      | None => raise (Exception "Needs ISO Code of the Country for Offline mode")
      | Some _ =>
          let tracker :=
            OfflineCO2Tracker.__init__ env
              (country_iso_code a) (country_name a) (region a)
              (project_name a) default_measure_power_secs
              (output_dir a) default_save_to_file in
          tracker <- BaseCO2Tracker.start tracker ;;
          _ <- fn args kwargs ;;
          let tracker := BaseCO2Tracker.sample readings tracker in
          _ <- BaseCO2Tracker.stop env tracker ;;
          ret PyNone
      end
    else
      let tracker :=
        CO2Tracker.__init__ env (project_name a) default_measure_power_secs
          (output_dir a) default_save_to_file in
      tracker <- BaseCO2Tracker.start tracker ;;
      _ <- fn args kwargs ;;
      let tracker := BaseCO2Tracker.sample readings tracker in
      _ <- BaseCO2Tracker.stop env tracker ;;
      ret PyNone.

Definition _decorate (env : Env) (a : decorator_args)
    (readings : list Power.t) (fn : Callable) : Callable :=
  wrapped_fn env a readings fn.

(** [track_co2]: [_decorate(fn)] when [fn] is given, [_decorate] itself
    otherwise. *)
Definition track_co2 (env : Env) (readings : list Power.t)
    (fn : option Callable) (a : decorator_args)
    : Callable + (Callable -> Callable) :=
  match fn with
  | Some f => inl (_decorate env a readings f)
  | None => inr (_decorate env a readings)
  end.

(** The explicit API, stated from the specification for comparison with
    [wrapped_fn]: construct the tracker that corresponds to the decorator's
    arguments ([OfflineCO2Tracker] when [offline], [CO2Tracker] otherwise),
    then [start()], [fn(arguments)], [stop()], in that order. *)
Definition corresponding_tracker (env : Env) (a : decorator_args)
    : BaseCO2Tracker.t :=
  if offline a then
    OfflineCO2Tracker.__init__ env
      (country_iso_code a) (country_name a) (region a)
      (project_name a) default_measure_power_secs
      (output_dir a) default_save_to_file
  else
    CO2Tracker.__init__ env (project_name a) default_measure_power_secs
      (output_dir a) default_save_to_file.

Definition start_fn_stop (env : Env) (a : decorator_args)
    (readings : list Power.t) (fn : Callable) : Callable :=
  fun args kwargs =>
    let tracker := corresponding_tracker env a in
    tracker <- BaseCO2Tracker.start tracker ;;
    _ <- fn args kwargs ;;
    let tracker := BaseCO2Tracker.sample readings tracker in
    _ <- BaseCO2Tracker.stop env tracker ;;
    ret PyNone.

(** ** [Data.get_cloud_emissions_barchart_data] ([co2_tracker/viz/data.py]) *)

Module Data.

(** A row of the cloud emissions table, restricted to the columns the method
    selects: [provider], [providerName], [region], [impact], [countryName]. *)
Record cloud_row : Type := {
  provider : string;
  providerName : string;
  region : string;
  impact : Q;
  countryName : string
}.

(** A row of the frame once the [emissions] column is added. *)
Record bar_row : Type := {
  columns : cloud_row;
  emissions : Q
}.

(** The lambda given to [cloud_emissions.apply(..., axis=1)]. *)
Definition row_emissions (net_energy_consumed : Q) (row : cloud_row) : Q :=
  CO2EmissionsPerKwh.kgs_per_kwh
    (CO2EmissionsPerKwh.from_g_per_kwh (impact row))
  * net_energy_consumed.

(** [cloud_emissions["emissions"] = cloud_emissions.apply(...)] *)
Definition with_emissions (net_energy_consumed : Q)
    (cloud_emissions : list cloud_row) : list bar_row :=
  map (fun row => {| columns := row;
                     emissions := row_emissions net_energy_consumed row |})
      cloud_emissions.

(** [sort_values(by="emissions")]: ascending; the order pandas leaves
    between rows of equal emissions is not relied upon. *)
Fixpoint insert_by_emissions (x : bar_row) (l : list bar_row) : list bar_row :=
  match l with
  | [] => [x]
  | y :: rest =>
      if Qle_bool (emissions x) (emissions y) then x :: y :: rest
      else y :: insert_by_emissions x rest
  end.

Fixpoint sort_values_by_emissions (l : list bar_row) : list bar_row :=
  match l with
  | [] => []
  | x :: rest => insert_by_emissions x (sort_values_by_emissions rest)
  end.

(** The method; [cloud_emissions_data] is the table returned by
    [self._data_source.get_cloud_emissions_data()].  [iloc[0, :]] on an
    empty selection raises [IndexError]. *)
Definition get_cloud_emissions_barchart_data
    (cloud_emissions_data : list cloud_row)
    (net_energy_consumed : Q) (on_cloud cloud_provider cloud_region : string)
    : outcome (string * list bar_row) :=
  if String.eqb on_cloud "N" then Return ("", [])
  else
    let cloud_emissions :=
      with_emissions net_energy_consumed cloud_emissions_data in
    let cloud_emissions_project_region :=
      filter (fun r => String.eqb (region (columns r)) cloud_region)
             cloud_emissions in
    let cloud_emissions :=
      sort_values_by_emissions
        (filter (fun r =>
                   andb (String.eqb (provider (columns r)) cloud_provider)
                        (negb (String.eqb (region (columns r)) cloud_region)))
                cloud_emissions) in
    match cloud_emissions_project_region with
    | [] => Raise (IndexError "single positional indexer is out-of-bounds")
    | first :: _ =>
        Return (providerName (columns first),
                (cloud_emissions_project_region ++ cloud_emissions)%list)
    end.

End Data.

(** ** Vocabulary of the statements about [stop] *)

(** The tracker [stop] leaves behind: [self] with its scheduler shut down. *)
Definition stopped (self : BaseCO2Tracker.t) : BaseCO2Tracker.t :=
  BaseCO2Tracker.set_scheduler self
    {| BackgroundScheduler.jobs :=
         BackgroundScheduler.jobs (BaseCO2Tracker._scheduler self);
       BackgroundScheduler.running := false |}.

(** Every one of these sinks returns when it is given a record. *)
Definition sinks_return (w : World) (sinks : list BaseOutput) : Prop :=
  forall (sink : BaseOutput) (data : CO2Data.t),
    In sink sinks -> io_error w sink data = None.


(** ** Concrete scenarios, used to instantiate the properties below *)

Definition private_env : Env :=
  {| is_gpu_details_available := true;
     geo_js_url := "https://get.geojs.io/v1/ip/geo.json";
     from_geo_js := fun _ =>
       Return {| GeoMetadata.country_iso_code := Some "FRA";
                 GeoMetadata.country_name := Some "France";
                 GeoMetadata.region := None |};
     from_co2_tracker_utils :=
       Return {| CloudMetadata.provider := None;
                 CloudMetadata.region := None |};
     get_private_infra_emissions := fun e _ => Return (Energy.kwh e * (1 # 2));
     get_cloud_emissions := fun e _ => Return (Energy.kwh e * (1 # 5));
     get_cloud_country_name := fun _ => Return (Some "United States");
     get_cloud_country_iso_code := fun _ => Return (Some "USA");
     get_cloud_geo_region := fun _ => Return (Some "virginia") |}.

Definition cloud_env : Env :=
  {| is_gpu_details_available := true;
     geo_js_url := geo_js_url private_env;
     from_geo_js := from_geo_js private_env;
     from_co2_tracker_utils :=
       Return {| CloudMetadata.provider := Some "aws";
                 CloudMetadata.region := Some "us-east-1" |};
     get_private_infra_emissions := get_private_infra_emissions private_env;
     get_cloud_emissions := get_cloud_emissions private_env;
     get_cloud_country_name := get_cloud_country_name private_env;
     get_cloud_country_iso_code := get_cloud_country_iso_code private_env;
     get_cloud_geo_region := get_cloud_geo_region private_env |}.

Definition no_gpu_env : Env :=
  {| is_gpu_details_available := false;
     geo_js_url := geo_js_url private_env;
     from_geo_js := from_geo_js private_env;
     from_co2_tracker_utils := from_co2_tracker_utils private_env;
     get_private_infra_emissions := get_private_infra_emissions private_env;
     get_cloud_emissions := get_cloud_emissions private_env;
     get_cloud_country_name := get_cloud_country_name private_env;
     get_cloud_country_iso_code := get_cloud_country_iso_code private_env;
     get_cloud_geo_region := get_cloud_geo_region private_env |}.

Definition morning : World :=
  {| time_time := 1000;
     datetime_now := "2020-11-03T09:00:00";
     uuid4 := "6f1c2f0e-0d3b-4c5e-9a55-2f7f4a1f0b11";
     io_error := fun _ _ => None;
     events := [] |}.

(** A tracker started at time 1000 that has sampled 300 W four times at the
    default interval. *)
Definition busy_tracker (env : Env) (cls : BaseCO2Tracker.subclass)
    : BaseCO2Tracker.t :=
  Nat.iter 4 (BaseCO2Tracker._measure_power (Power.from_watts 300))
    (BaseCO2Tracker.set_scheduler
       (BaseCO2Tracker.set_start_time
          (BaseCO2Tracker.__init__ env cls "default" 15 "." true)
          (Some 1000))
       {| BackgroundScheduler.jobs := [15%Z];
          BackgroundScheduler.running := true |}).

Definition noon : World :=
  {| time_time := 1060;
     datetime_now := "2020-11-03T09:01:00";
     uuid4 := "6f1c2f0e-0d3b-4c5e-9a55-2f7f4a1f0b11";
     io_error := fun _ _ => None;
     events := [SchedulerStart] |}.

(** The same moment with an output directory that does not exist. *)
Definition noon_without_directory : World :=
  {| time_time := 1060;
     datetime_now := "2020-11-03T09:01:00";
     uuid4 := "6f1c2f0e-0d3b-4c5e-9a55-2f7f4a1f0b11";
     io_error := fun _ _ =>
       Some (CollaboratorError "FileNotFoundError: ./emissions.csv");
     events := [SchedulerStart] |}.

Definition french_tracker : BaseCO2Tracker.t :=
  busy_tracker private_env
    (BaseCO2Tracker.OfflineCO2Tracker "FRA" "France" None).



Definition on_premise : CloudMetadata.t :=
  {| CloudMetadata.provider := None; CloudMetadata.region := None |}.

Definition france : GeoMetadata.t :=
  {| GeoMetadata.country_iso_code := Some "FRA";
     GeoMetadata.country_name := Some "France";
     GeoMetadata.region := None |}.

(** A decorated function: it logs nothing and returns 42. *)
Definition answer : Callable := fun _ _ => ret (PyInt 42).

Definition offline_without_iso : decorator_args :=
  {| project_name := "default";
     output_dir := ".";
     offline := true;
     country_iso_code := None;
     country_name := None;
     region := None |}.

Definition offline_usa : decorator_args :=
  {| project_name := "default";
     output_dir := ".";
     offline := true;
     country_iso_code := Some "USA";
     country_name := None;
     region := None |}.

Definition online_default : decorator_args :=
  {| project_name := "default";
     output_dir := ".";
     offline := false;
     country_iso_code := None;
     country_name := None;
     region := None |}.

Definition cloud_table : list Data.cloud_row :=
  [ {| Data.provider := "aws"; Data.providerName := "Amazon Web Services";
       Data.region := "us-east-1"; Data.impact := 367;
       Data.countryName := "United States" |};
    {| Data.provider := "aws"; Data.providerName := "Amazon Web Services";
       Data.region := "eu-west-3"; Data.impact := 105 # 2;
       Data.countryName := "France" |};
    {| Data.provider := "gcp"; Data.providerName := "Google Cloud Platform";
       Data.region := "europe-west1"; Data.impact := 196;
       Data.countryName := "Belgium" |} ].

(** * Further code of the sources *)

From Stdlib Require Import Sorted Permutation Qround.

(** ** Exceptions and results of the methods of [Data] below *)

(** The exceptions these methods raise themselves, and those of the first
    part of the file or of a collaborator, passed on. *)
Inductive pyerror : Type :=
| KeyError (key : string)
| TypeError (msg : string)
| ZeroDivisionError
| Raised (e : exn).

Inductive result (A : Type) : Type :=
| Ok (a : A)
| Error (e : pyerror).
Arguments Ok {A} a.
Arguments Error {A} e.

Definition and_then {A B} (r : result A) (k : A -> result B) : result B :=
  match r with
  | Ok a => k a
  | Error e => Error e
  end.

Notation "x <~ c ;; k" := (and_then c (fun x => k))
  (at level 61, c at next level, right associativity).

(** [x in xs] on strings. *)
Definition str_in (x : string) (xs : list string) : bool :=
  existsb (String.eqb x) xs.

Module Dashboard.

(** *** [Data.get_project_data] and [Data.get_project_summary] *)

(** A frame of emissions records, one row per run: the rows are [CO2Data]
    records, the columns their fields. *)
Definition DataFrame : Type := list CO2Data.t.

Definition df_columns : list string :=
  ["timestamp"; "experiment_id"; "project_name"; "duration"; "emissions";
   "energy_consumed"; "country_name"; "country_iso_code"; "region";
   "on_cloud"; "cloud_provider"; "cloud_region"].

(** [dt.DataTable(data=..., columns=...)]; a column is its
    [{"name": column, "id": column}] pair. *)
Record DataTable : Type := {
  data : list CO2Data.t;
  columns : list (string * string)
}.

(** [sort_values(by="timestamp")]: ascending on the timestamp strings; the
    order pandas leaves between equal timestamps is not relied upon. *)
Fixpoint insert_by_timestamp (x : CO2Data.t) (l : list CO2Data.t)
    : list CO2Data.t :=
  match l with
  | [] => [x]
  | y :: rest =>
      if String.leb (CO2Data.timestamp x) (CO2Data.timestamp y)
      then x :: y :: rest
      else y :: insert_by_timestamp x rest
  end.

Fixpoint sort_values_by_timestamp (l : list CO2Data.t) : list CO2Data.t :=
  match l with
  | [] => []
  | x :: rest => insert_by_timestamp x (sort_values_by_timestamp rest)
  end.

(** The order of [sort_values(by="timestamp")]. *)
Definition earlier (a b : CO2Data.t) : Prop :=
  String.leb (CO2Data.timestamp a) (CO2Data.timestamp b) = true.

Definition get_project_data (df : DataFrame) (project_name : string)
    : DataTable :=
  let project_df :=
    filter (fun row => String.eqb (CO2Data.project_name row) project_name)
           df in
  let project_df := sort_values_by_timestamp project_df in
  let project_data := project_df in
  let columns := map (fun column => (column, column)) df_columns in
  {| data := project_data; columns := columns |}.

(** The dictionary returned by [get_project_summary]. *)
Record run_figures : Type := {
  timestamp : string;
  duration : Q;
  emissions : Q;
  energy_consumed : Q
}.

Record total_figures : Type := {
  total_duration : Q;
  total_emissions : Q;
  total_energy_consumed : Q
}.

Record project_summary : Type := {
  last_run : run_figures;
  total : total_figures;
  country_name : option string;
  country_iso_code : option string;
  region : option string;
  on_cloud : string;
  cloud_provider : option string;
  cloud_region : option string
}.

(** [sum(map(f, xs))]: from 0, left to right. *)
Definition sum_map {A} (f : A -> Q) (xs : list A) : Q :=
  fold_left (fun acc x => acc + f x) xs 0.

(** [xs[-1]] *)
Definition last_item {A} (xs : list A) : result A :=
  match rev xs with
  | [] => Error (Raised (IndexError "list index out of range"))
  | x :: _ => Ok x
  end.

Definition get_project_summary (project_data : list CO2Data.t)
    : result project_summary :=
  last_run <~ last_item project_data ;;
  Ok {| last_run :=
          {| timestamp := CO2Data.timestamp last_run;
             duration := CO2Data.duration last_run;
             emissions := CO2Data.emissions last_run;
             energy_consumed := CO2Data.energy_consumed last_run |};
        total :=
          {| total_duration := sum_map CO2Data.duration project_data;
             total_emissions := sum_map CO2Data.emissions project_data;
             total_energy_consumed :=
               sum_map CO2Data.energy_consumed project_data |};
        country_name := CO2Data.country_name last_run;
        country_iso_code := CO2Data.country_iso_code last_run;
        region := CO2Data.region last_run;
        on_cloud := CO2Data.on_cloud last_run;
        cloud_provider := CO2Data.cloud_provider last_run;
        cloud_region := CO2Data.cloud_region last_run |}.

(** *** The two choropleth methods *)

(** An entry of the global energy mix table, with the keys the method
    reads. *)
Record energy_mix : Type := {
  countryName : string;
  mix_total : Q;
  mix_coal : Q;
  mix_petroleum : Q;
  mix_naturalGas : Q;
  mix_lowCarbon : Q
}.

(** An entry of a country's regional emissions table. *)
Record region_entry : Type := {
  regionCode : string
}.

(** What the two methods call outside the source: the data source, the
    emissions calculator, and the formatting [float("{:.1f}".format(x))].
    A call that fails raises. *)
Record Sources : Type := {
  get_global_energy_mix_data : result (list (string * energy_mix));
  get_country_emissions_data : string -> result (list (string * region_entry));
  get_country_emissions : Energy.t -> GeoMetadata.t -> result Q;
  get_region_emissions : Energy.t -> GeoMetadata.t -> result Q;
  format_1f : Q -> Q
}.

(** A dictionary appended by [get_global_emissions_choropleth_data]. *)
Record country_row : Type := {
  iso_code : string;
  country_emissions : Q;
  country : string;
  coal : Q;
  petroleum : Q;
  natural_gas : Q;
  low_carbon : Q
}.

(** The inner function; the division raises when [total] is zero. *)
Definition formatted_energy_percentage (src : Sources)
    (energy_type total : Q) : result Q :=
  if Qeq_bool total 0 then Error ZeroDivisionError
  else Ok (format_1f src (energy_type / total * 100)).

(** The [for country_iso_code in global_energy_mix.keys()] loop;
    [choropleth_data] is the list built so far. *)
Fixpoint global_loop (src : Sources) (net_energy_consumed : Q)
    (global_energy_mix : list (string * energy_mix))
    (choropleth_data : list country_row) : result (list country_row) :=
  match global_energy_mix with
  | [] => Ok choropleth_data
  | (country_iso_code, entry) :: rest =>
      let country_name := countryName entry in
      if negb (str_in country_iso_code ["_define"; "ATA"]) then
        let energy_consumed := Energy.from_energy net_energy_consumed in
        country_emissions <~
          get_country_emissions src energy_consumed
            (GeoMetadata.__init__ country_iso_code (Some country_name)
               None) ;;
        let total := mix_total entry in
        coal <~ formatted_energy_percentage src (mix_coal entry) total ;;
        petroleum <~
          formatted_energy_percentage src (mix_petroleum entry) total ;;
        natural_gas <~
          formatted_energy_percentage src (mix_naturalGas entry) total ;;
        low_carbon <~
          formatted_energy_percentage src (mix_lowCarbon entry) total ;;
        global_loop src net_energy_consumed rest
          (choropleth_data
           ++ [ {| iso_code := country_iso_code;
                   country_emissions := country_emissions;
                   country := country_name;
                   coal := coal;
                   petroleum := petroleum;
                   natural_gas := natural_gas;
                   low_carbon := low_carbon |} ])
      else global_loop src net_energy_consumed rest choropleth_data
  end.

Definition get_global_emissions_choropleth_data (src : Sources)
    (net_energy_consumed : Q) : result (list country_row) :=
  global_energy_mix <~ get_global_energy_mix_data src ;;
  global_loop src net_energy_consumed global_energy_mix [].

(** What a row appended for [entry] under [iso] holds. *)
Definition country_row_of (src : Sources) (net : Q) (iso : string) (entry : energy_mix)
    (row : country_row) : Prop :=
  iso_code row = iso
  /\ country row = countryName entry
  /\ get_country_emissions src (Energy.from_energy net)
       (GeoMetadata.__init__ iso (Some (countryName entry)) None)
     = Ok (country_emissions row)
  /\ coal row = format_1f src (mix_coal entry / mix_total entry * 100)
  /\ petroleum row
     = format_1f src (mix_petroleum entry / mix_total entry * 100)
  /\ natural_gas row
     = format_1f src (mix_naturalGas entry / mix_total entry * 100)
  /\ low_carbon row
     = format_1f src (mix_lowCarbon entry / mix_total entry * 100).

(** The [emissions] value of a regional row: a number, or the empty string
    of the placeholder row. *)
Inductive emissions_cell : Type :=
| Kgs (q : Q)
| Blank.

Record region_row : Type := {
  region_code : string;
  region_name : string;
  region_emissions_cell : emissions_cell
}.

(** The [for region_name in region_emissions.keys()] loop. *)
Fixpoint regional_loop (src : Sources) (net_energy_consumed : Q)
    (country_iso_code : string)
    (region_emissions : list (string * region_entry))
    (choropleth_data : list region_row) : result (list region_row) :=
  match region_emissions with
  | [] => Ok choropleth_data
  | (name, entry) :: rest =>
      let code := regionCode entry in
      if negb (str_in name ["_unit"]) then
        let energy_consumed := Energy.from_energy net_energy_consumed in
        emissions <~
          get_region_emissions src energy_consumed
            (GeoMetadata.__init__ country_iso_code None (Some name)) ;;
        regional_loop src net_energy_consumed country_iso_code rest
          (choropleth_data
           ++ [ {| region_code := code;
                   region_name := name;
                   region_emissions_cell := Kgs emissions |} ])
      else
        regional_loop src net_energy_consumed country_iso_code rest
          choropleth_data
  end.

Definition get_regional_emissions_choropleth_data (src : Sources)
    (net_energy_consumed : Q) (country_iso_code : string)
    : result (list region_row) :=
  if negb (str_in (upper country_iso_code) ["USA"]) then
    Ok [ {| region_code := ""; region_name := "";
            region_emissions_cell := Blank |} ]
  else
    region_emissions <~
      get_country_emissions_data src (lower country_iso_code) ;;
    regional_loop src net_energy_consumed country_iso_code
      region_emissions [].

End Dashboard.

(** ** [UserWithAuthDependency] ([carbonserver/api/routers/authenticate.py]) *)

Module UserWithAuthDependency.

(** The decoded payload of a token: a dictionary. *)
Definition claims : Type := list (string * pyval).

(** [d[key]] on a dictionary. *)
Fixpoint getitem (d : claims) (key : string) : result pyval :=
  match d with
  | [] => Error (KeyError key)
  | (k, v) :: rest => if String.eqb k key then Ok v else getitem rest key
  end.

(** What [__init__] calls: [jwt.decode(token, options={"verify_signature":
    False}, algorithms=["HS256"])] and [user_service.get_user_by_id]; [User]
    is what the service returns. *)
Record Services (User : Type) : Type := {
  jwt_decode : string -> result claims;
  get_user_by_id : pyval -> result User
}.
Arguments jwt_decode {User} _ _.
Arguments get_user_by_id {User} _ _.

(** The attributes [__init__] sets besides [user_service]. *)
Record t (User : Type) : Type := {
  auth_user : option claims;
  db_user : option User
}.
Arguments auth_user {User} _.
Arguments db_user {User} _.

(** [self.auth_user["sub"]]: [None] is not subscriptable. *)
Definition subject (auth_user : option claims) : result pyval :=
  match auth_user with
  | None => Error (TypeError "'NoneType' object is not subscriptable")
  | Some d => getitem d "sub"
  end.

(** [__init__]; the parameters [auth_user_cookie] and [api_key] are not
    used by the body. *)
Definition __init__ {User : Type} (svc : Services User)
    (cookie_token : option string) : result (t User) :=
  auth_user <~
    match cookie_token with
    | Some token => claims <~ jwt_decode svc token ;; Ok (Some claims)
    | None => Ok None
    end ;;
  let db_user :=
    match (sub <~ subject auth_user ;; get_user_by_id svc sub) with
    | Ok user => Some user
    | Error _ => None
    end in
  Ok {| auth_user := auth_user; db_user := db_user |}.

End UserWithAuthDependency.

(** ** Further scenarios *)


(** A decorated function that raises. *)
Definition crashing : Callable := fun _ _ => raise (Exception "out of memory").

Definition run_at (timestamp project : string) (emissions : Q) : CO2Data.t :=
  {| CO2Data.timestamp := timestamp;
     CO2Data.experiment_id := "6f1c2f0e-0d3b-4c5e-9a55-2f7f4a1f0b11";
     CO2Data.project_name := project;
     CO2Data.duration := 60;
     CO2Data.emissions := emissions;
     CO2Data.energy_consumed := emissions * 2;
     CO2Data.country_name := Some "France";
     CO2Data.country_iso_code := Some "FRA";
     CO2Data.region := None;
     CO2Data.on_cloud := "N";
     CO2Data.cloud_provider := Some "";
     CO2Data.cloud_region := Some "" |}.

Definition three_runs : Dashboard.DataFrame :=
  [ run_at "2020-11-03T09:01:00" "default" (1 # 800);
    run_at "2020-11-02T17:30:00" "other" (1 # 100);
    run_at "2020-11-01T08:00:00" "default" (3 # 800) ].

(** A formatter to one decimal: the nearest tenth, ties to the even one. *)
Definition nearest_tenth (q : Q) : Q :=
  let x := q * 10 in
  let f := Qfloor x in
  let d := x - inject_Z f in
  let up := if Qle_bool d (1 # 2)
            then if Qeq_bool d (1 # 2) then Z.odd f else false
            else true in
  inject_Z (if up then f + 1 else f) / 10.

Definition mix_of (name : string) (total coal petroleum gas low : Q)
    : Dashboard.energy_mix :=
  {| Dashboard.countryName := name;
     Dashboard.mix_total := total;
     Dashboard.mix_coal := coal;
     Dashboard.mix_petroleum := petroleum;
     Dashboard.mix_naturalGas := gas;
     Dashboard.mix_lowCarbon := low |}.

Definition world_mix : list (string * Dashboard.energy_mix) :=
  [ ("_define", mix_of "definitions" 0 0 0 0 0);
    ("FRA", mix_of "France" 400 10 120 60 210);
    ("ATA", mix_of "Antarctica" 0 0 0 0 0);
    ("USA", mix_of "United States" 1000 300 350 250 100) ].

Definition us_regions : list (string * Dashboard.region_entry) :=
  [ ("_unit", {| Dashboard.regionCode := "" |});
    ("california", {| Dashboard.regionCode := "ca" |});
    ("texas", {| Dashboard.regionCode := "tx" |}) ].

Definition atlas : Dashboard.Sources :=
  {| Dashboard.get_global_energy_mix_data := Ok world_mix;
     Dashboard.get_country_emissions_data := fun code =>
       if String.eqb code "usa" then Ok us_regions
       else Error (KeyError code);
     Dashboard.get_country_emissions := fun e _ => Ok (Energy.kwh e * (1 # 2));
     Dashboard.get_region_emissions := fun e _ => Ok (Energy.kwh e * (1 # 4));
     Dashboard.format_1f := nearest_tenth |}.

(** The same sources with a country whose total is zero. *)
Definition atlas_with_gap : Dashboard.Sources :=
  {| Dashboard.get_global_energy_mix_data :=
       Ok (world_mix ++ [("XXX", mix_of "Nowhere" 0 0 0 0 0)])%list;
     Dashboard.get_country_emissions_data :=
       Dashboard.get_country_emissions_data atlas;
     Dashboard.get_country_emissions := Dashboard.get_country_emissions atlas;
     Dashboard.get_region_emissions := Dashboard.get_region_emissions atlas;
     Dashboard.format_1f := nearest_tenth |}.

(** A sources record whose every call raises. *)
Definition no_sources : Dashboard.Sources :=
  {| Dashboard.get_global_energy_mix_data :=
       Error (Raised (CollaboratorError "no data"));
     Dashboard.get_country_emissions_data := fun _ =>
       Error (Raised (CollaboratorError "no data"));
     Dashboard.get_country_emissions := fun _ _ =>
       Error (Raised (CollaboratorError "no factor"));
     Dashboard.get_region_emissions := fun _ _ =>
       Error (Raised (CollaboratorError "no factor"));
     Dashboard.format_1f := nearest_tenth |}.

(** Services that know one token and one user. *)
Definition one_user : UserWithAuthDependency.Services string :=
  {| UserWithAuthDependency.jwt_decode := fun token =>
       if String.eqb token "header.payload.signature"
       then Ok [("email", PyStr "a@b.c"); ("sub", PyStr "42")]
       else Error (Raised (CollaboratorError "DecodeError"));
     UserWithAuthDependency.get_user_by_id := fun sub =>
       match sub with
       | PyStr "42" => Ok "alice"
       | _ => Error (Raised (CollaboratorError "user not found"))
       end |}.

(** * Properties *)

(** ** Accumulation of energy by the sampler *)

Section Sampling.
Import BaseCO2Tracker.

Lemma measure_power_secs_iter (power : Power.t) (n : nat) (self : t) :
  _measure_power_secs (Nat.iter n (_measure_power power) self)
  = _measure_power_secs self.
Proof.
  induction n as [|n IH]; simpl; auto.
Qed.

Lemma of_nat_succ_Q (n : nat) :
  inject_Z (Z.of_nat (S n)) == inject_Z (Z.of_nat n) + 1.
Proof.
  rewrite Nat2Z.inj_succ. unfold Z.succ. rewrite inject_Z_plus. reflexivity.
Qed.

Lemma total_energy_iter (power : Power.t) (n : nat) (self : t) :
  Energy.kwh (_total_energy (Nat.iter n (_measure_power power) self))
  == Energy.kwh (_total_energy self)
     + inject_Z (Z.of_nat n) * Power.watts power
       * inject_Z (_measure_power_secs self) / 3600000.
Proof.
  induction n as [|n IH].
  - simpl. field.
  - rewrite of_nat_succ_Q.
    change (Nat.iter (S n) (_measure_power power) self)
      with (_measure_power power (Nat.iter n (_measure_power power) self)).
    unfold _measure_power at 1. simpl.
    rewrite IH, measure_power_secs_iter. field.
Qed.

(** C1.  Each firing of the sampling task adds exactly
    [Energy.from_power_and_time(total_power, measure_power_secs)] to the
    accumulated energy and touches nothing else; hence [n] firings at a
    constant reading of [P] watts add [n * P * measure_power_secs / 3_600_000]
    kWh, which is the accumulated energy itself for a tracker that starts
    from the zero energy set by [__init__]. *)
Theorem measure_power_adds_sample :
  forall (self : t) (power : Power.t),
    let delta := inject_Z (_measure_power_secs self) in
    _measure_power power self
    = set_total_energy self
        (Energy.add (_total_energy self)
           (Energy.from_power_and_time power (Time.from_seconds delta)))
    /\ Energy.kwh (_total_energy (_measure_power power self))
       == Energy.kwh (_total_energy self)
          + Power.watts power * delta / 3600000
    /\ (forall n : nat,
          Energy.kwh (_total_energy (Nat.iter n (_measure_power power) self))
          == Energy.kwh (_total_energy self)
             + inject_Z (Z.of_nat n) * Power.watts power * delta / 3600000)
    /\ (forall (env : Env) (cls : subclass) (project output_dir : string)
               (secs : Z) (save_to_file : bool) (n : nat),
          Energy.kwh
            (_total_energy
               (Nat.iter n (_measure_power power)
                  (__init__ env cls project secs output_dir save_to_file)))
          == inject_Z (Z.of_nat n) * Power.watts power * inject_Z secs
             / 3600000).
Proof.
  intros self power delta. repeat split.
  - simpl. unfold delta. field.
  - intro n. apply total_energy_iter.
  - intros env cls project output_dir secs save_to_file n.
    rewrite total_energy_iter. simpl. field.
Qed.

(** A period of a running scheduler that holds the one job added by
    [__init__] is one firing of [_measure_power]. *)
Lemma tick_single_job (power : Power.t) (self : t) (secs : Z) :
  BackgroundScheduler.running (_scheduler self) = true ->
  BackgroundScheduler.jobs (_scheduler self) = [secs] ->
  tick power self = _measure_power power self.
Proof.
  intros Hrun Hjobs. unfold tick. now rewrite Hrun, Hjobs.
Qed.

Lemma scheduler_measure_power (power : Power.t) (self : t) :
  _scheduler (_measure_power power self) = _scheduler self.
Proof. reflexivity. Qed.

Lemma sample_constant (power : Power.t) (n : nat) (self : t) (secs : Z) :
  BackgroundScheduler.running (_scheduler self) = true ->
  BackgroundScheduler.jobs (_scheduler self) = [secs] ->
  sample (repeat power n) self = Nat.iter n (_measure_power power) self.
Proof.
  revert self. induction n as [|n IH]; intros self Hrun Hjobs; [reflexivity|].
  simpl repeat. unfold sample. simpl fold_left. fold (sample (repeat power n)).
  rewrite (tick_single_job power self secs Hrun Hjobs).
  rewrite IH by (rewrite scheduler_measure_power; assumption).
  clear. induction n as [|n IH]; [reflexivity|].
  simpl. now rewrite IH.
Qed.

(** Once the scheduler does not run, sampler periods change nothing. *)
Lemma sample_not_running (readings : list Power.t) (self : t) :
  BackgroundScheduler.running (_scheduler self) = false ->
  sample readings self = self.
Proof.
  intro Hoff. induction readings as [|power readings IH]; [reflexivity|].
  assert (Hidle : tick power self = self)
    by (unfold tick; now rewrite Hoff).
  unfold sample in *. simpl fold_left. now rewrite Hidle.
Qed.

(** [start] on a tracker fresh from [__init__], metering available. *)
Lemma start_fresh (env : Env) (cls : subclass) (project output_dir : string)
      (secs : Z) (save_to_file : bool) (w : World) :
  is_gpu_details_available env = true ->
  let self := __init__ env cls project secs output_dir save_to_file in
  start self w
  = (Return
       (set_scheduler (set_start_time self (Some (time_time w)))
          {| BackgroundScheduler.jobs := [secs];
             BackgroundScheduler.running := true |}),
     extend [SchedulerStart] w).
Proof.
  intros Hgpu self.
  assert (Hself : _is_gpu_available self = true) by exact Hgpu.
  unfold start. rewrite Hself. reflexivity.
Qed.

End Sampling.

(** ** The monad and the event log *)

Lemma extend_extend (a b : list event) (w : World) :
  extend b (extend a w) = extend (a ++ b) w.
Proof.
  unfold extend; simpl. now rewrite app_assoc.
Qed.

Lemma extend_nil (w : World) : extend [] w = w.
Proof.
  destruct w; unfold extend; simpl. now rewrite app_nil_r.
Qed.

Lemma written_app (a b : list event) :
  written (a ++ b) = (written a ++ written b)%list.
Proof.
  induction a as [|e a IH]; simpl; auto.
  destruct e; simpl; auto. now rewrite IH.
Qed.

Lemma written_outs (data : CO2Data.t) (sinks : list BaseOutput) :
  written (map (fun sink => Out sink data) sinks)
  = map (fun sink => (sink, data)) sinks.
Proof.
  induction sinks as [|s sinks IH]; simpl; auto. now rewrite IH.
Qed.

Lemma sinks_return_extend (evs : list event) (w : World)
      (sinks : list BaseOutput) :
  sinks_return w sinks -> sinks_return (extend evs w) sinks.
Proof. intros H sink data Hin. exact (H sink data Hin). Qed.

Lemma for_each_out (data : CO2Data.t) (sinks : list BaseOutput) (w : World) :
  sinks_return w sinks ->
  for_each (fun persistence => out persistence data) sinks w
  = (Return tt, extend (map (fun sink => Out sink data) sinks) w).
Proof.
  revert w. induction sinks as [|s sinks IH]; intros w Hsinks; simpl.
  - unfold ret. now rewrite extend_nil.
  - unfold bind, out. rewrite (Hsinks s data (or_introl eq_refl)).
    unfold emit_world. rewrite IH, extend_extend; [reflexivity|].
    apply sinks_return_extend. intros sink d Hin. apply Hsinks. now right.
Qed.

(** The loop over the sinks stops at the first one that raises: those
    before it have written the record, it and those after it have not. *)
Lemma for_each_out_cases (data : CO2Data.t) (sinks : list BaseOutput)
      (w w' : World) (o : outcome unit) :
  for_each (fun persistence => out persistence data) sinks w = (o, w') ->
  (o = Return tt
   /\ w' = extend (map (fun sink => Out sink data) sinks) w)
  \/ (exists (x : exn) (done rest : list BaseOutput) (failing : BaseOutput),
         o = Raise x
         /\ sinks = (done ++ failing :: rest)%list
         /\ io_error w failing data = Some x
         /\ w' = extend (map (fun sink => Out sink data) done) w).
Proof.
  revert w. induction sinks as [|s sinks IH]; intros w Hrun; simpl in Hrun.
  - left. unfold ret in Hrun. inversion Hrun; subst.
    split; [reflexivity | now rewrite extend_nil].
  - unfold bind, out in Hrun.
    destruct (io_error w s data) as [x|] eqn:Hio.
    + right. inversion Hrun; subst. exists x, [], sinks, s.
      repeat split; [exact Hio | now rewrite extend_nil].
    + destruct (IH _ Hrun) as [[Ho Hw] | (x & done & rest & failing & Ho
                                          & Hsplit & Hio' & Hw)].
      * left. split; [exact Ho|]. subst w'. unfold emit_world.
        now rewrite extend_extend.
      * right. exists x, (s :: done), rest, failing. subst.
        split; [reflexivity|]. split; [reflexivity|].
        split; [exact Hio'|]. unfold emit_world. now rewrite extend_extend.
Qed.

(** ** [start] and [stop] outside a run *)

Section Lifecycle.
Import BaseCO2Tracker.
Variable env : Env.

(** C5.  A tracker on which [start()] never succeeded has no start
    timestamp; [stop()] on it returns [None] (it does not raise), leaves the
    tracker as it was, and its only effect is the error record: nothing is
    written to any sink. *)
Theorem stop_before_start :
  forall (self : t) (w : World),
    _start_time self = None ->
    stop env self w
    = (Return (None, self),
       extend [LogError "Need to first start the tracker"] w)
    /\ written (events (snd (stop env self w))) = written (events w).
Proof.
  intros self w Hidle.
  assert (E : stop env self w
              = (Return (None, self),
                 extend [LogError "Need to first start the tracker"] w)).
  { unfold stop. rewrite Hidle. reflexivity. }
  split; [exact E|].
  rewrite E. simpl. rewrite written_app. simpl. now rewrite app_nil_r.
Qed.

(** C6.  When no power metering is detected at construction, [start()] only
    logs the warning: the tracker it returns is the tracker it was given,
    with no start timestamp and a scheduler that does not run; [stop()]
    called afterwards, in whatever world, returns [None] without raising. *)
Theorem start_without_metering :
  forall (cls : subclass) (project output_dir : string) (secs : Z)
         (save_to_file : bool) (w : World),
    is_gpu_details_available env = false ->
    let self := __init__ env cls project secs output_dir save_to_file in
    start self w = (Return self, extend [LogWarning "No GPU available"] w)
    /\ _start_time self = None
    /\ BackgroundScheduler.running (_scheduler self) = false
    /\ (forall power, tick power self = self)
    /\ forall w' : World,
         stop env self w'
         = (Return (None, self),
            extend [LogError "Need to first start the tracker"] w').
Proof.
  intros cls project output_dir secs save_to_file w Hgpu self.
  assert (Hself : _is_gpu_available self = false) by exact Hgpu.
  split; [|split; [|split; [|split]]].
  - unfold start. rewrite Hself. reflexivity.
  - reflexivity.
  - reflexivity.
  - intro power. reflexivity.
  - intro w'. reflexivity.
Qed.

(** C7.  [start()] on a tracker that already has a start timestamp logs one
    warning and returns the tracker unchanged: same start timestamp, same
    accumulated energy, same scheduler with the same jobs, so a period of the
    sampler adds what it added before. *)
Theorem start_when_started :
  forall (self : t) (w : World) (started : Q),
    _start_time self = Some started ->
    (exists msg : string,
        start self w = (Return self, extend [LogWarning msg] w))
    /\ (_is_gpu_available self = true ->
        start self w
        = (Return self, extend [LogWarning "Already started tracking"] w))
    /\ forall (self' : t) (w' : World),
         start self w = (Return self', w') ->
         _start_time self' = Some started
         /\ _total_energy self' = _total_energy self
         /\ _scheduler self' = _scheduler self
         /\ forall power, tick power self' = tick power self.
Proof.
  intros self w started Hstarted.
  assert (E : exists msg : string,
             start self w = (Return self, extend [LogWarning msg] w)).
  { unfold start. rewrite Hstarted.
    destruct (_is_gpu_available self); simpl; eexists; reflexivity. }
  split; [exact E|]. split.
  - intro Hgpu. unfold start. rewrite Hgpu, Hstarted. reflexivity.
  - intros self' w' Hrun. destruct E as [msg E]. rewrite E in Hrun.
    inversion Hrun; subst. auto.
Qed.

(** Two calls of [start] on a fresh tracker with metering: the second one
    returns what the first one built, whose scheduler holds the single job
    added by [__init__], so a period is one firing of [_measure_power]. *)
Lemma start_twice_fresh (cls : subclass) (project output_dir : string)
      (secs : Z) (save_to_file : bool) (w w2 : World) :
  is_gpu_details_available env = true ->
  exists (once : t) (w1 : World),
    start (__init__ env cls project secs output_dir save_to_file) w
    = (Return once, w1)
    /\ start once w2
       = (Return once, extend [LogWarning "Already started tracking"] w2)
    /\ BackgroundScheduler.jobs (_scheduler once) = [secs]
    /\ forall power, tick power once = _measure_power power once.
Proof.
  intro Hgpu.
  pose proof (start_fresh env cls project output_dir secs save_to_file w Hgpu)
    as Hfirst.
  cbv zeta in Hfirst.
  eexists; eexists. split; [exact Hfirst|].
  split; [|split; [reflexivity|intro power; reflexivity]].
  unfold start. cbn [_is_gpu_available set_scheduler set_start_time __init__].
  rewrite Hgpu. reflexivity.
Qed.

End Lifecycle.

(** ** [stop] on a started tracker *)

Section Stop.
Import BaseCO2Tracker.
Variable env : Env.

Lemma footprint_private (self : t) (cloud : CloudMetadata.t)
      (geo : GeoMetadata.t) (e : Q) (w : World) :
  CloudMetadata.is_on_private_infra cloud = true ->
  get_private_infra_emissions env (_total_energy self) geo = Return e ->
  footprint env self cloud geo w
  = (Return {| emissions := e;
               country_name := GeoMetadata.country_name geo;
               country_iso_code := GeoMetadata.country_iso_code geo;
               region := GeoMetadata.region geo;
               on_cloud := "N";
               cloud_provider := Some "";
               cloud_region := Some "" |},
     extend [EnergyRead (_total_energy self)] w).
Proof.
  intros Hprivate Hcalc. unfold footprint. rewrite Hprivate.
  unfold read_total_energy. run_monad.
  rewrite Hcalc. reflexivity.
Qed.

Lemma footprint_cloud (self : t) (cloud : CloudMetadata.t)
      (geo : GeoMetadata.t) (e : Q) (name iso reg : option string)
      (w : World) :
  CloudMetadata.is_on_private_infra cloud = false ->
  get_cloud_emissions env (_total_energy self) cloud = Return e ->
  get_cloud_country_name env cloud = Return name ->
  get_cloud_country_iso_code env cloud = Return iso ->
  get_cloud_geo_region env cloud = Return reg ->
  footprint env self cloud geo w
  = (Return {| emissions := e;
               country_name := name;
               country_iso_code := iso;
               region := reg;
               on_cloud := "Y";
               cloud_provider := CloudMetadata.provider cloud;
               cloud_region := CloudMetadata.region cloud |},
     extend [EnergyRead (_total_energy self)] w).
Proof.
  intros Hcloud Hcalc Hname Hiso Hreg. unfold footprint. rewrite Hcloud.
  unfold read_total_energy. run_monad.
  rewrite Hcalc, Hname, Hiso, Hreg. reflexivity.
Qed.

(** [stop] on a started tracker whose scheduler runs, whose metadata
    resolve, whose branch assigns the locals [v] and whose sinks return. *)
Lemma stop_started (self : t) (w : World) (started : Q)
      (cloud : CloudMetadata.t) (geo : GeoMetadata.t) (v : locals) :
  _start_time self = Some started ->
  BackgroundScheduler.running (_scheduler self) = true ->
  sinks_return w (persistence_objs self) ->
  _get_cloud_metadata env self = Return cloud ->
  _get_geo_metadata env self = Return geo ->
  (forall w0, footprint env (stopped self) cloud geo w0
              = (Return v, extend [EnergyRead (_total_energy self)] w0)) ->
  stop env self w
  = (Return (Some (emissions v), stopped self),
     extend
       ([SchedulerShutdown;
         EnergyRead (_total_energy self);
         EnergyRead (_total_energy self)]
        ++ map (fun sink =>
                  Out sink
                    {| CO2Data.timestamp := datetime_now w;
                       CO2Data.experiment_id := uuid4 w;
                       CO2Data.project_name := _project_name self;
                       CO2Data.duration := time_time w - started;
                       CO2Data.emissions := emissions v;
                       CO2Data.energy_consumed :=
                         Energy.kwh (_total_energy self);
                       CO2Data.country_name := country_name v;
                       CO2Data.country_iso_code := country_iso_code v;
                       CO2Data.region := region v;
                       CO2Data.on_cloud := on_cloud v;
                       CO2Data.cloud_provider := cloud_provider v;
                       CO2Data.cloud_region := cloud_region v |})
              (persistence_objs self))
       w).
Proof.
  intros Hstarted Hrunning Hsinks Hcloud Hgeo Hfoot.
  unfold stop. rewrite Hstarted.
  unfold bind at 1. unfold BackgroundScheduler.shutdown. rewrite Hrunning.
  unfold bind at 1. unfold emit, ret at 1. cbv beta iota.
  fold (stopped self).
  unfold bind at 1, call at 1.
  change (_get_cloud_metadata env (stopped self))
    with (_get_cloud_metadata env self).
  rewrite Hcloud.
  unfold bind at 1, call at 1.
  change (_get_geo_metadata env (stopped self))
    with (_get_geo_metadata env self).
  rewrite Hgeo.
  unfold bind at 1, read at 1.
  unfold bind at 1. rewrite Hfoot.
  unfold bind at 1, assemble.
  unfold read_total_energy. run_monad.
  rewrite for_each_out by (apply sinks_return_extend; exact Hsinks).
  rewrite !extend_extend. reflexivity.
Qed.

(** C2.  [stop] on a started tracker whose scheduler runs, whose metadata
    resolve to [cloud] and [geo] and whose sinks return.  On private
    infrastructure the emissions returned are those of
    [get_private_infra_emissions] on the accumulated energy and [geo], the
    record carries the country and region of [geo], [on_cloud] is ["N"] and
    the two cloud fields are empty strings.  Otherwise the emissions are
    those of [get_cloud_emissions], the country and region are those of
    [get_cloud_country_name], [get_cloud_country_iso_code] and
    [get_cloud_geo_region], [on_cloud] is ["Y"] and the two cloud fields are
    those of [cloud].  That record goes to every sink. *)
Theorem stop_selects_calculator :
  forall (self : t) (w : World) (started : Q)
         (cloud : CloudMetadata.t) (geo : GeoMetadata.t),
    _start_time self = Some started ->
    BackgroundScheduler.running (_scheduler self) = true ->
    sinks_return w (persistence_objs self) ->
    _get_cloud_metadata env self = Return cloud ->
    _get_geo_metadata env self = Return geo ->
    (CloudMetadata.is_on_private_infra cloud = true ->
     forall e : Q,
       get_private_infra_emissions env (_total_energy self) geo = Return e ->
       stop env self w
       = (Return (Some e, stopped self),
          extend
            ([SchedulerShutdown;
              EnergyRead (_total_energy self);
              EnergyRead (_total_energy self)]
             ++ map (fun sink =>
                  Out sink
                    {| CO2Data.timestamp := datetime_now w;
                       CO2Data.experiment_id := uuid4 w;
                       CO2Data.project_name := _project_name self;
                       CO2Data.duration := time_time w - started;
                       CO2Data.emissions := e;
                       CO2Data.energy_consumed :=
                         Energy.kwh (_total_energy self);
                       CO2Data.country_name := GeoMetadata.country_name geo;
                       CO2Data.country_iso_code :=
                         GeoMetadata.country_iso_code geo;
                       CO2Data.region := GeoMetadata.region geo;
                       CO2Data.on_cloud := "N";
                       CO2Data.cloud_provider := Some "";
                       CO2Data.cloud_region := Some "" |})
                  (persistence_objs self))
            w))
    /\ (CloudMetadata.is_on_private_infra cloud = false ->
        forall (e : Q) (name iso reg : option string),
          get_cloud_emissions env (_total_energy self) cloud = Return e ->
          get_cloud_country_name env cloud = Return name ->
          get_cloud_country_iso_code env cloud = Return iso ->
          get_cloud_geo_region env cloud = Return reg ->
          stop env self w
          = (Return (Some e, stopped self),
             extend
               ([SchedulerShutdown;
                 EnergyRead (_total_energy self);
                 EnergyRead (_total_energy self)]
                ++ map (fun sink =>
                     Out sink
                       {| CO2Data.timestamp := datetime_now w;
                          CO2Data.experiment_id := uuid4 w;
                          CO2Data.project_name := _project_name self;
                          CO2Data.duration := time_time w - started;
                          CO2Data.emissions := e;
                          CO2Data.energy_consumed :=
                            Energy.kwh (_total_energy self);
                          CO2Data.country_name := name;
                          CO2Data.country_iso_code := iso;
                          CO2Data.region := reg;
                          CO2Data.on_cloud := "Y";
                          CO2Data.cloud_provider :=
                            CloudMetadata.provider cloud;
                          CO2Data.cloud_region :=
                            CloudMetadata.region cloud |})
                     (persistence_objs self))
               w)).
Proof.
  intros self w started cloud geo Hstarted Hrunning Hsinks Hcloud Hgeo.
  split.
  - intros Hprivate e Hcalc.
    rewrite (stop_started self w started cloud geo _
               Hstarted Hrunning Hsinks Hcloud Hgeo
               (fun w0 => footprint_private (stopped self) cloud geo e w0
                            Hprivate Hcalc)).
    reflexivity.
  - intros Hpublic e name iso reg Hcalc Hname Hiso Hreg.
    rewrite (stop_started self w started cloud geo _
               Hstarted Hrunning Hsinks Hcloud Hgeo
               (fun w0 => footprint_cloud (stopped self) cloud geo e
                            name iso reg w0 Hpublic Hcalc Hname Hiso Hreg)).
    reflexivity.
Qed.


(** The ways a call of [stop] can end. *)
Lemma stop_cases (self : t) (w w' : World)
      (o : outcome (option Q * t)) :
  stop env self w = (o, w') ->
  (_start_time self = None
   /\ o = Return (None, self)
   /\ w' = extend [LogError "Need to first start the tracker"] w)
  \/ (exists started : Q,
        _start_time self = Some started
        /\ ((BackgroundScheduler.running (_scheduler self) = false
             /\ o = Raise SchedulerNotRunningError
             /\ w' = w)
            \/ (BackgroundScheduler.running (_scheduler self) = true
                /\ ((exists (x : exn) (reads : list event),
                        o = Raise x
                        /\ w' = extend (SchedulerShutdown :: reads) w
                        /\ written reads = [])
                    \/ (exists (e : Q) (data : CO2Data.t)
                               (done : list BaseOutput),
                           CO2Data.emissions data = e
                           /\ w' = extend
                                     ([SchedulerShutdown;
                                       EnergyRead (_total_energy self);
                                       EnergyRead (_total_energy self)]
                                      ++ map (fun sink => Out sink data) done)
                                     w
                           /\ ((o = Return (Some e, stopped self)
                                /\ done = persistence_objs self)
                               \/ (exists (x : exn) (failing : BaseOutput)
                                          (rest : list BaseOutput),
                                      o = Raise x
                                      /\ persistence_objs self
                                         = (done ++ failing :: rest)%list
                                      /\ io_error w failing data
                                         = Some x))))))).
Proof.
  unfold stop. destruct (_start_time self) as [started|].
  2: { intro H. left. inversion H; subst. auto. }
  intro H. right. exists started. split; [reflexivity|]. revert H.
  unfold BackgroundScheduler.shutdown.
  destruct (BackgroundScheduler.running (_scheduler self)) eqn:Hrunning.
  2: { intro H. left. inversion H; subst. auto. }
  intro H. right. split; [reflexivity|]. revert H.
  unfold footprint, assemble, read_total_energy.
  run_monad.
  replace {| BackgroundScheduler.jobs :=
               BackgroundScheduler.jobs (_scheduler self);
             BackgroundScheduler.running := false |}
    with (_scheduler (stopped self)) by reflexivity.
  destruct (_get_cloud_metadata env _) as [cloud|e1].
  2: { intro H; inversion H; subst. left. exists e1, []. auto. }
  destruct (_get_geo_metadata env _) as [geo|e2].
  2: { intro H; inversion H; subst. left. exists e2, []. auto. }
  destruct (CloudMetadata.is_on_private_infra cloud); run_monad;
    repeat match goal with
      | |- context [match ?r with Return _ => _ | Raise _ => _ end] =>
          lazymatch r with
          | context [for_each] => fail
          | _ => let E := fresh "E" in destruct r eqn:E
          end
      end;
    rewrite ?extend_extend;
    try (intro H; inversion H; subst; left; eexists; eexists;
         split; [reflexivity|]; split; reflexivity);
    match goal with
    | |- context [for_each ?body ?sinks ?w0] =>
        destruct (for_each body sinks w0) as [o1 w1] eqn:Hloop;
        apply for_each_out_cases in Hloop;
        destruct Hloop as [[Ho Hw] | (x & done & rest & failing & Ho
                                      & Hsplit & Hio & Hw)];
        subst o1 w1; rewrite ?extend_extend; intro H; inversion H; subst;
        right; eexists; eexists; eexists;
        (split; [|split; [reflexivity|]]);
        [ reflexivity | left; split; reflexivity
        | reflexivity | right; exists x, failing, rest;
                        split; [reflexivity|]; split; [exact Hsplit|];
                        exact Hio ]
    end.
Qed.


End Stop.

(** ** The decorator *)

Section Decorator.
Variable env : Env.

Lemma wrapped_fn_past_guard (a : decorator_args) (readings : list Power.t)
      (fn : Callable) (args : list pyval) (kwargs : list (string * pyval))
      (w : World) :
  (offline a = true -> country_iso_code a <> None) ->
  wrapped_fn env a readings fn args kwargs w
  = start_fn_stop env a readings fn args kwargs w.
Proof.
  intro Hguard. unfold wrapped_fn, start_fn_stop, corresponding_tracker.
  destruct (offline a) eqn:Hoff; [|reflexivity].
  destruct (country_iso_code a) as [iso|] eqn:Hiso; [reflexivity|].
  exfalso. now apply Hguard.
Qed.

(** C8, as the code has it.  The decorated function is the explicit API
    (construct the corresponding tracker, [start()], [fn(arguments)],
    [stop()], in that order) whenever offline mode comes with a country ISO
    code; in offline mode without one it raises before any tracker is
    built and before [fn] is called. *)
Theorem wrapped_fn_is_start_fn_stop :
  forall (a : decorator_args) (readings : list Power.t) (fn : Callable)
         (args : list pyval) (kwargs : list (string * pyval)) (w : World),
    ((offline a = true -> country_iso_code a <> None) ->
     wrapped_fn env a readings fn args kwargs w
     = start_fn_stop env a readings fn args kwargs w)
    /\ (offline a = true -> country_iso_code a = None ->
        wrapped_fn env a readings fn args kwargs w
        = (Raise (Exception "Needs ISO Code of the Country for Offline mode"),
           w)).
Proof.
  intros a readings fn args kwargs w. split.
  - apply wrapped_fn_past_guard.
  - intros Hoff Hiso. unfold wrapped_fn. rewrite Hoff, Hiso. reflexivity.
Qed.

Lemma bind_returns {A B : Type} (c : M A) (k : A -> M B) (w w' : World)
      (b : B) :
  bind c k w = (Return b, w') ->
  exists (a : A) (w1 : World), c w = (Return a, w1) /\ k a w1 = (Return b, w').
Proof.
  unfold bind. destruct (c w) as [[a|e] w1]; intro H.
  - now exists a, w1.
  - discriminate H.
Qed.

(** C10.  Whatever [fn] returns, the decorated function returns [None]:
    every value it returns is [None], and it does return [None] as soon as
    the guard passes and [fn] and [stop] return, whatever their values. *)
Theorem wrapped_fn_returns_None :
  forall (a : decorator_args) (readings : list Power.t) (fn : Callable)
         (args : list pyval) (kwargs : list (string * pyval)) (w : World),
    (forall (v : pyval) (w' : World),
        wrapped_fn env a readings fn args kwargs w = (Return v, w') ->
        v = PyNone)
    /\ (forall (tracker : BaseCO2Tracker.t) (w1 w2 w3 : World)
               (value : pyval) (result : option Q * BaseCO2Tracker.t),
           (offline a = true -> country_iso_code a <> None) ->
           BaseCO2Tracker.start (corresponding_tracker env a) w
           = (Return tracker, w1) ->
           fn args kwargs w1 = (Return value, w2) ->
           BaseCO2Tracker.stop env
             (BaseCO2Tracker.sample readings tracker) w2
           = (Return result, w3) ->
           wrapped_fn env a readings fn args kwargs w = (Return PyNone, w3)).
Proof.
  intros a readings fn args kwargs w. split.
  - intros v w' Hrun. unfold wrapped_fn in Hrun.
    destruct (offline a).
    + destruct (country_iso_code a); [|discriminate Hrun].
      apply bind_returns in Hrun. destruct Hrun as (t1 & w1 & _ & Hrun).
      apply bind_returns in Hrun. destruct Hrun as (x & w2 & _ & Hrun).
      apply bind_returns in Hrun. destruct Hrun as (r & w3 & _ & Hrun).
      unfold ret in Hrun. now inversion Hrun.
    + apply bind_returns in Hrun. destruct Hrun as (t1 & w1 & _ & Hrun).
      apply bind_returns in Hrun. destruct Hrun as (x & w2 & _ & Hrun).
      apply bind_returns in Hrun. destruct Hrun as (r & w3 & _ & Hrun).
      unfold ret in Hrun. now inversion Hrun.
  - intros tracker w1 w2 w3 value result Hguard Hstart Hfn Hstop.
    rewrite (wrapped_fn_past_guard a readings fn args kwargs w Hguard).
    unfold start_fn_stop.
    unfold bind at 1. rewrite Hstart.
    unfold bind at 1. rewrite Hfn.
    unfold bind at 1. rewrite Hstop. reflexivity.
Qed.

(** C4, on the code.  [OfflineCO2Tracker.__init__] has no failing path:
    given no ISO code and no country name it builds a tracker whose geo
    metadata is Canada's, and given an ISO code but no name it pairs that
    code, in upper case, with the name "Canada". *)
Theorem offline_init_substitutes_canada :
  forall (iso : string) (region : option string) (project output_dir : string)
         (secs : Z) (save_to_file : bool),
    BaseCO2Tracker._get_geo_metadata env
      (OfflineCO2Tracker.__init__ env None None region
         project secs output_dir save_to_file)
    = Return {| GeoMetadata.country_iso_code := Some "CAN";
                GeoMetadata.country_name := Some "Canada";
                GeoMetadata.region := region |}
    /\ BaseCO2Tracker._get_geo_metadata env
         (OfflineCO2Tracker.__init__ env (Some iso) None region
            project secs output_dir save_to_file)
       = Return {| GeoMetadata.country_iso_code := Some (upper iso);
                   GeoMetadata.country_name := Some "Canada";
                   GeoMetadata.region := region |}.
Proof.
  intros. split; reflexivity.
Qed.

End Decorator.

(** ** The cloud bar chart *)

Section BarChart.
Import Data.

Lemma insert_by_emissions_In (x y : bar_row) (l : list bar_row) :
  In y (insert_by_emissions x l) -> y = x \/ In y l.
Proof.
  induction l as [|z l IH]; simpl.
  - intros [H|[]]; auto.
  - destruct (Qle_bool (emissions x) (emissions z)); simpl.
    + intros [H|[H|H]]; auto.
    + intros [H|H]; auto. destruct (IH H); auto.
Qed.

Lemma sort_values_by_emissions_In (y : bar_row) (l : list bar_row) :
  In y (sort_values_by_emissions l) -> In y l.
Proof.
  induction l as [|x l IH]; simpl; auto.
  intro H. destruct (insert_by_emissions_In _ _ _ H); auto.
Qed.

Lemma with_emissions_In (net : Q) (r : bar_row) (table : list cloud_row) :
  In r (with_emissions net table) ->
  In (columns r) table /\ emissions r = row_emissions net (columns r).
Proof.
  unfold with_emissions. rewrite in_map_iff.
  intros (row & <- & Hin). simpl. auto.
Qed.

(** C9.  The [emissions] value computed for a row of the cloud emissions
    table is its impact factor divided by 1000 (g to kg of CO2 per kWh)
    times [net_energy_consumed], the exact product: this is the value in the
    [emissions] column of every row of the frame, and of every row of the
    frame the method returns. *)
Theorem barchart_emissions_value :
  forall (table : list cloud_row) (net_energy_consumed : Q),
    (forall row : cloud_row,
        row_emissions net_energy_consumed row
        = CO2EmissionsPerKwh.kgs_per_kwh
            (CO2EmissionsPerKwh.from_g_per_kwh (impact row))
          * net_energy_consumed
        /\ row_emissions net_energy_consumed row
           = impact row / 1000 * net_energy_consumed)
    /\ with_emissions net_energy_consumed table
       = map (fun row =>
                {| columns := row;
                   emissions := impact row / 1000 * net_energy_consumed |})
             table
    /\ forall (on_cloud cloud_provider cloud_region name : string)
              (frame : list bar_row),
         get_cloud_emissions_barchart_data table net_energy_consumed
           on_cloud cloud_provider cloud_region
         = Return (name, frame) ->
         forall r : bar_row,
           In r frame ->
           In (columns r) table
           /\ emissions r = impact (columns r) / 1000 * net_energy_consumed.
Proof.
  intros table net. split; [intro row; split; reflexivity|].
  split; [reflexivity|].
  intros on_cloud cloud_provider cloud_region name frame Hrun r Hin.
  unfold get_cloud_emissions_barchart_data in Hrun.
  destruct (String.eqb on_cloud "N").
  - inversion Hrun; subst. destruct Hin.
  - destruct (filter _ (with_emissions net table)) as [|first rest] eqn:Hsel;
      [discriminate Hrun|].
    inversion Hrun; subst; clear Hrun.
    apply with_emissions_In.
    change (In r ((first :: rest) ++
                  sort_values_by_emissions
                    (filter
                       (fun r =>
                          andb (String.eqb (provider (columns r))
                                           cloud_provider)
                               (negb (String.eqb (region (columns r))
                                                 cloud_region)))
                       (with_emissions net table)))) in Hin.
    apply in_app_or in Hin. destruct Hin as [Hin|Hin].
    + rewrite <- Hsel in Hin. apply filter_In in Hin. tauto.
    + apply sort_values_by_emissions_In in Hin.
      apply filter_In in Hin. tauto.
Qed.

End BarChart.

(** * The properties on the concrete scenarios *)

(** Four firings at 300 W, 15 s apart, from a fresh tracker: 0.005 kWh. *)
Example four_samples_of_300W :
  Energy.kwh
    (BaseCO2Tracker._total_energy
       (Nat.iter 4 (BaseCO2Tracker._measure_power (Power.from_watts 300))
          (CO2Tracker.__init__ private_env "default" 15 "." true)))
  == 5 # 1000.
Proof. vm_compute. reflexivity. Qed.

Lemma stop_selects_calculator_witness :
  BaseCO2Tracker._start_time french_tracker = Some 1000
  /\ BackgroundScheduler.running (BaseCO2Tracker._scheduler french_tracker)
     = true
  /\ sinks_return noon (BaseCO2Tracker.persistence_objs french_tracker)
  /\ BaseCO2Tracker._get_cloud_metadata private_env french_tracker
     = Return on_premise
  /\ BaseCO2Tracker._get_geo_metadata private_env french_tracker
     = Return france
  /\ fst (BaseCO2Tracker.stop private_env french_tracker noon)
     = Return
         (Some (Energy.kwh (BaseCO2Tracker._total_energy french_tracker)
                * (1 # 2)),
          stopped french_tracker)
  /\ map (fun x => CO2Data.on_cloud (snd x))
         (written (events (snd (BaseCO2Tracker.stop private_env
                                  french_tracker noon))))
     = ["N"].
Proof.
  destruct (stop_selects_calculator private_env french_tracker noon 1000
              on_premise france eq_refl eq_refl (fun _ _ _ => eq_refl)
              eq_refl eq_refl) as [Hprivate _].
  specialize (Hprivate eq_refl _ eq_refl).
  rewrite Hprivate.
  split; [reflexivity|]. split; [reflexivity|].
  split; [intros sink data _; reflexivity|].
  split; [reflexivity|]. split; [reflexivity|].
  split; reflexivity.
Defined.



Lemma stop_before_start_witness :
  BaseCO2Tracker._start_time
    (CO2Tracker.__init__ private_env "default" 15 "." true) = None
  /\ BaseCO2Tracker.stop private_env
       (CO2Tracker.__init__ private_env "default" 15 "." true) morning
     = (Return (None, CO2Tracker.__init__ private_env "default" 15 "." true),
        extend [LogError "Need to first start the tracker"] morning)
  /\ written
       (events
          (snd (BaseCO2Tracker.stop private_env
                  (CO2Tracker.__init__ private_env "default" 15 "." true)
                  morning)))
     = [].
Proof.
  split; [reflexivity|].
  apply (stop_before_start private_env
           (CO2Tracker.__init__ private_env "default" 15 "." true) morning).
  reflexivity.
Defined.

Lemma start_without_metering_witness :
  is_gpu_details_available no_gpu_env = false
  /\ BaseCO2Tracker.start
       (CO2Tracker.__init__ no_gpu_env "default" 15 "." true) morning
     = (Return (CO2Tracker.__init__ no_gpu_env "default" 15 "." true),
        extend [LogWarning "No GPU available"] morning)
  /\ BaseCO2Tracker.stop no_gpu_env
       (CO2Tracker.__init__ no_gpu_env "default" 15 "." true) noon
     = (Return (None, CO2Tracker.__init__ no_gpu_env "default" 15 "." true),
        extend [LogError "Need to first start the tracker"] noon).
Proof.
  split; [reflexivity|].
  destruct (start_without_metering no_gpu_env BaseCO2Tracker.CO2Tracker
              "default" "." 15 true morning eq_refl)
    as (Hstart & _ & _ & _ & Hstop).
  split; [exact Hstart | exact (Hstop noon)].
Defined.

Lemma start_when_started_witness :
  BaseCO2Tracker._start_time french_tracker = Some 1000
  /\ BaseCO2Tracker.start french_tracker noon
     = (Return french_tracker,
        extend [LogWarning "Already started tracking"] noon).
Proof.
  split; [reflexivity|].
  destruct (start_when_started french_tracker noon 1000 eq_refl)
    as (_ & Hwarn & _).
  exact (Hwarn eq_refl).
Defined.

Lemma wrapped_fn_is_start_fn_stop_witness :
  (offline offline_usa = true -> country_iso_code offline_usa <> None)
  /\ wrapped_fn private_env offline_usa
       [Power.from_watts 300; Power.from_watts 250] answer [PyInt 1] [] morning
     = start_fn_stop private_env offline_usa
         [Power.from_watts 300; Power.from_watts 250] answer [PyInt 1] []
         morning.
Proof.
  assert (Hguard : offline offline_usa = true ->
                   country_iso_code offline_usa <> None)
    by (intros _; discriminate).
  split; [exact Hguard|].
  apply (wrapped_fn_is_start_fn_stop private_env offline_usa
           [Power.from_watts 300; Power.from_watts 250] answer [PyInt 1] []
           morning).
  exact Hguard.
Defined.

(** C8 as stated fails: decorated in offline mode without an ISO code,
    [answer] is never called and the call raises, whereas the explicit API on
    the corresponding [OfflineCO2Tracker] runs [start], [answer] and [stop]
    and ends normally, having written a record for Canada. *)
Lemma wrapped_fn_guard_counterexample :
  wrapped_fn private_env offline_without_iso [] answer [] [] morning
  = (Raise (Exception "Needs ISO Code of the Country for Offline mode"),
     morning)
  /\ fst (start_fn_stop private_env offline_without_iso [] answer [] []
            morning)
     = Return PyNone
  /\ map (fun x => CO2Data.country_name (snd x))
         (written
            (events
               (snd (start_fn_stop private_env offline_without_iso []
                       answer [] [] morning))))
     = [Some "Canada"]
  /\ wrapped_fn private_env offline_without_iso [] answer [] [] morning
     <> start_fn_stop private_env offline_without_iso [] answer [] [] morning.
Proof.
  split; [reflexivity|]. split; [reflexivity|]. split; [reflexivity|].
  intro H. apply (f_equal fst) in H. vm_compute in H. discriminate H.
Defined.

Lemma wrapped_fn_returns_None_witness :
  (offline online_default = true -> country_iso_code online_default <> None)
  /\ fst (answer [PyInt 1] [] (extend [SchedulerStart] morning))
     = Return (PyInt 42)
  /\ fst (wrapped_fn private_env online_default [Power.from_watts 300]
            answer [PyInt 1] [] morning)
     = Return PyNone.
Proof.
  assert (Hguard : offline online_default = true ->
                   country_iso_code online_default <> None)
    by (intros H; discriminate H).
  split; [exact Hguard|]. split; [reflexivity|].
  destruct (wrapped_fn_returns_None private_env online_default
              [Power.from_watts 300] answer [PyInt 1] [] morning)
    as [_ Hruns].
  rewrite (Hruns _ _ _ _ _ _ Hguard
             (start_fresh private_env BaseCO2Tracker.CO2Tracker
                "default" "." 15 true morning eq_refl)
             eq_refl eq_refl).
  reflexivity.
Defined.

Lemma barchart_emissions_value_witness :
  exists frame : list Data.bar_row,
    Data.get_cloud_emissions_barchart_data cloud_table 10
      "Y" "aws" "us-east-1"
    = Return ("Amazon Web Services", frame)
    /\ map Data.emissions frame
       = [367 / 1000 * 10; (105 # 2) / 1000 * 10]
    /\ forall r : Data.bar_row,
         In r frame ->
         In (Data.columns r) cloud_table
         /\ Data.emissions r = Data.impact (Data.columns r) / 1000 * 10.
Proof.
  eexists. split; [reflexivity|]. split; [reflexivity|].
  destruct (barchart_emissions_value cloud_table 10) as (_ & _ & Hframe).
  exact (Hframe "Y" "aws" "us-east-1" "Amazon Web Services" _ eq_refl).
Defined.

(** The decorator on a whole run: two sampler periods elapse while the
    function runs; the caller gets [None], the sink gets one record. *)
Example decorated_run :
  fst (wrapped_fn private_env offline_usa
         [Power.from_watts 300; Power.from_watts 300] answer [] [] morning)
  = Return PyNone
  /\ map (fun x => (fst x,
                    Qred (CO2Data.energy_consumed (snd x)),
                    Qred (CO2Data.emissions (snd x)),
                    CO2Data.country_iso_code (snd x),
                    CO2Data.country_name (snd x)))
         (written
            (events
               (snd (wrapped_fn private_env offline_usa
                       [Power.from_watts 300; Power.from_watts 300]
                       answer [] [] morning))))
     = [(FileOutput "./emissions.csv", 1 # 400, 1 # 800,
         Some "USA", Some "Canada")].
Proof. split; vm_compute; reflexivity. Qed.


(** * Further properties of the tracker *)

Section TrackerRuns.
Import BaseCO2Tracker.
Variable env : Env.

(** X1.  When [stop] raises, the tracker had been started.  Either its
    scheduler did not run, and [stop] raises [SchedulerNotRunningError] with
    nothing logged, read or written.  Or the scheduler has been shut down
    first, and then either no record has been written to any sink, or a sink
    raised the exception when given the record: the sinks registered before
    it have each written that record, it and those after it nothing. *)
Theorem stop_failure_after_shutdown :
  forall (self : t) (w w' : World) (x : exn),
    stop env self w = (Raise x, w') ->
    (exists started : Q, _start_time self = Some started)
    /\ ((BackgroundScheduler.running (_scheduler self) = false
         /\ x = SchedulerNotRunningError
         /\ w' = w)
        \/ (BackgroundScheduler.running (_scheduler self) = true
            /\ exists tail : list event,
                 events w' = (events w ++ SchedulerShutdown :: tail)%list
                 /\ written (events w')
                    = (written (events w) ++ written tail)%list
                 /\ (written tail = []
                     \/ exists (data : CO2Data.t) (failing : BaseOutput)
                               (done rest : list BaseOutput),
                          persistence_objs self
                          = (done ++ failing :: rest)%list
                          /\ io_error w failing data = Some x
                          /\ written tail
                             = map (fun sink => (sink, data)) done))).
Proof.
  intros self w w' x Hstop.
  destruct (stop_cases env self w w' _ Hstop)
    as [(_ & Ho & _) | (started & Hstarted & Hcases)];
    [discriminate Ho|].
  split; [now exists started|].
  destruct Hcases as [(Hoff & Ho & Hw) | (Hon & Hran)].
  - left. inversion Ho. auto.
  - right. split; [exact Hon|].
    destruct Hran as [(x' & reads & _ & Hw & Hreads)
                     | (e & data & done & _ & Hw & Hend)]; subst w'.
    + exists reads. split; [reflexivity|]. split.
      * cbn [events extend]. rewrite written_app. reflexivity.
      * now left.
    + destruct Hend as [(Ho & _) | (x' & failing & rest & Ho & Hsplit & Hio)];
        [discriminate Ho|].
      inversion Ho; subst x'.
      eexists. split; [reflexivity|]. split.
      * cbn [events extend app]. rewrite written_app. reflexivity.
      * right. exists data, failing, done, rest.
        split; [exact Hsplit|]. split; [exact Hio|].
        cbn [written app]. apply written_outs.
Qed.

(** X2.  A tracker runs once: after a [stop] that returned emissions,
    [start] only logs a warning and returns the tracker as [stop] left it,
    its scheduler shut down, so no later period of the sampler counts. *)
Theorem start_after_stop_does_not_resume :
  forall (self self' : t) (w w' w2 : World) (e : Q),
    stop env self w = (Return (Some e, self'), w') ->
    (exists msg : string,
        start self' w2 = (Return self', extend [LogWarning msg] w2))
    /\ BackgroundScheduler.running (_scheduler self') = false
    /\ forall readings : list Power.t, sample readings self' = self'.
Proof.
  intros self self' w w' w2 e Hstop.
  destruct (stop_cases env self w w' _ Hstop)
    as [(_ & Ho & _) | (started & Hstarted & [(_ & Ho & _) | (_ & Hran)])];
    [discriminate Ho | discriminate Ho |].
  destruct Hran as [(x & reads & Ho & _) | (e' & data & done & _ & _ & Hend)];
    [discriminate Ho|].
  destruct Hend as [(Ho & _) | (x & failing & rest & Ho & _)];
    [|discriminate Ho].
  inversion Ho; subst self'. split; [|split].
  - unfold start. cbn [_is_gpu_available _start_time stopped set_scheduler].
    rewrite Hstarted.
    destruct (_is_gpu_available self); simpl; eexists; reflexivity.
  - reflexivity.
  - intro readings. now apply sample_not_running.
Qed.

(** Sampling and the fields of the tracker. *)
Lemma set_total_energy_twice (self : t) (a b : Energy.t) :
  set_total_energy (set_total_energy self a) b = set_total_energy self b.
Proof. reflexivity. Qed.

Lemma set_total_energy_same (self : t) :
  set_total_energy self (_total_energy self) = self.
Proof. now destruct self. Qed.

Lemma frame_trans (a b c : t) :
  a = set_total_energy b (_total_energy a) ->
  b = set_total_energy c (_total_energy b) ->
  a = set_total_energy c (_total_energy a).
Proof.
  intros Hab Hbc. rewrite Hab at 1. rewrite Hbc at 1.
  apply set_total_energy_twice.
Qed.

Lemma jobs_fire_frame (power : Power.t) (jobs : list Z) (self : t) :
  fold_left (fun acc _ => _measure_power power acc) jobs self
  = set_total_energy self
      (_total_energy
         (fold_left (fun acc _ => _measure_power power acc) jobs self)).
Proof.
  revert self. induction jobs as [|j jobs IH]; intro self; simpl.
  - now rewrite set_total_energy_same.
  - apply (frame_trans _ (_measure_power power self) self);
      [apply IH | reflexivity].
Qed.

Lemma tick_frame (power : Power.t) (self : t) :
  tick power self = set_total_energy self (_total_energy (tick power self)).
Proof.
  unfold tick. destruct (BackgroundScheduler.running (_scheduler self)).
  - apply jobs_fire_frame.
  - now rewrite set_total_energy_same.
Qed.

Lemma sample_frame (readings : list Power.t) (self : t) :
  sample readings self
  = set_total_energy self (_total_energy (sample readings self)).
Proof.
  revert self. induction readings as [|power readings IH]; intro self.
  - simpl. now rewrite set_total_energy_same.
  - change (sample (power :: readings) self)
      with (sample readings (tick power self)).
    apply (frame_trans _ (tick power self) self);
      [apply IH | apply tick_frame].
Qed.

(** X3.  Periods of the sampler change the accumulated energy and nothing
    else: start timestamp, scheduler, sinks, interval and class of the
    tracker are those it had. *)
Theorem sample_changes_energy_only :
  forall (readings : list Power.t) (self : t),
    sample readings self
    = set_total_energy self (_total_energy (sample readings self)).
Proof.
  exact sample_frame.
Qed.

Lemma measure_power_grows (power : Power.t) (self : t) :
  0 <= Power.watts power ->
  (0 <= _measure_power_secs self)%Z ->
  Energy.kwh (_total_energy self)
  <= Energy.kwh (_total_energy (_measure_power power self)).
Proof.
  intros Hpower Hsecs. simpl.
  assert (Hq : 0 <= inject_Z (_measure_power_secs self)).
  { change 0 with (inject_Z 0). now rewrite <- Zle_Qle. }
  pose proof (Qmult_le_0_compat _ _ Hpower Hq) as Hprod.
  set (p := Power.watts power * inject_Z (_measure_power_secs self)) in *.
  assert (Hdiv : 0 <= p / 3600 / 1000).
  { unfold Qdiv. repeat apply Qmult_le_0_compat; auto; discriminate. }
  lra.
Qed.

Lemma jobs_fire_grows (power : Power.t) (jobs : list Z) (self : t) :
  0 <= Power.watts power ->
  (0 <= _measure_power_secs self)%Z ->
  Energy.kwh (_total_energy self)
  <= Energy.kwh
       (_total_energy
          (fold_left (fun acc _ => _measure_power power acc) jobs self)).
Proof.
  intros Hpower. revert self.
  induction jobs as [|j jobs IH]; intros self Hsecs; simpl.
  - apply Qle_refl.
  - eapply Qle_trans; [apply (measure_power_grows power self Hpower Hsecs)|].
    apply IH. exact Hsecs.
Qed.

(** X4.  With readings and an interval that are not negative, the
    accumulated energy never decreases over any sequence of sampler
    periods. *)
Theorem sample_never_decreases :
  forall (readings : list Power.t) (self : t),
    (forall power, In power readings -> 0 <= Power.watts power) ->
    (0 <= _measure_power_secs self)%Z ->
    Energy.kwh (_total_energy self)
    <= Energy.kwh (_total_energy (sample readings self)).
Proof.
  induction readings as [|power readings IH]; intros self Hpos Hsecs.
  - apply Qle_refl.
  - change (sample (power :: readings) self)
      with (sample readings (tick power self)).
    assert (Hsame : _measure_power_secs (tick power self)
                    = _measure_power_secs self)
      by (rewrite (tick_frame power self); reflexivity).
    eapply Qle_trans.
    2: { apply IH; [intros p Hp; apply Hpos; now right|].
         now rewrite Hsame. }
    unfold tick. destruct (BackgroundScheduler.running (_scheduler self)).
    + apply jobs_fire_grows; [apply Hpos; now left | exact Hsecs].
    + apply Qle_refl.
Qed.

(** X5.  From construction to the sampler: on a tracker fresh from
    [__init__], periods that elapse before [start()] count for nothing;
    after a [start()] with metering available, [n] periods at a constant
    reading of [P] watts leave [n * P * measure_power_secs / 3_600_000]
    kWh. *)
Theorem sampling_counts_from_start :
  forall (cls : subclass) (project output_dir : string) (secs : Z)
         (save_to_file : bool) (w : World) (power : Power.t) (n : nat),
    let fresh := __init__ env cls project secs output_dir save_to_file in
    (forall readings : list Power.t, sample readings fresh = fresh)
    /\ (is_gpu_details_available env = true ->
        exists (started : t) (w1 : World),
          start fresh w = (Return started, w1)
          /\ _start_time started = Some (time_time w)
          /\ Energy.kwh (_total_energy (sample (repeat power n) started))
             == inject_Z (Z.of_nat n) * Power.watts power * inject_Z secs
                / 3600000).
Proof.
  intros cls project output_dir secs save_to_file w power n fresh. split.
  - intro readings. now apply sample_not_running.
  - intro Hgpu.
    pose proof (start_fresh env cls project output_dir secs save_to_file w
                  Hgpu) as Hstart.
    cbv zeta in Hstart. fold fresh in Hstart.
    eexists; eexists. split; [exact Hstart|]. split; [reflexivity|].
    rewrite (sample_constant power n _ secs) by reflexivity.
    rewrite total_energy_iter. simpl. field.
Qed.

(** X6.  An [OfflineCO2Tracker] consults nothing but the
    private-infrastructure calculator when it stops: in two environments
    whose [get_private_infra_emissions] agree, [stop] does the same, whatever
    their resolvers and cloud calculators do. *)
Theorem offline_stop_ignores_network :
  forall (env' : Env) (self : t) (w : World)
         (iso name : string) (reg : option string),
    class self = OfflineCO2Tracker iso name reg ->
    (forall energy geo,
        get_private_infra_emissions env energy geo
        = get_private_infra_emissions env' energy geo) ->
    stop env self w = stop env' self w.
Proof.
  intros env' self w iso name reg Hclass Hsame.
  unfold stop. destruct (_start_time self) as [started|]; [|reflexivity].
  unfold BackgroundScheduler.shutdown.
  destruct (BackgroundScheduler.running (_scheduler self)); [|reflexivity].
  unfold _get_cloud_metadata, _get_geo_metadata, footprint, read_total_energy.
  cbn [class set_scheduler]. rewrite Hclass.
  run_monad. cbn [CloudMetadata.is_on_private_infra CloudMetadata.provider].
  run_monad. now rewrite Hsame.
Qed.

End TrackerRuns.

(** * Further properties of the decorator and of whole runs *)

Section DecoratorRuns.
Variable env : Env.

(** X7.  When the decorated function raises, its exception reaches the
    caller and [stop] is never called: the world is left as the function
    left it, with no shutdown of the scheduler and no record written. *)
Theorem wrapped_fn_passes_exception :
  forall (a : decorator_args) (readings : list Power.t) (fn : Callable)
         (args : list pyval) (kwargs : list (string * pyval))
         (w w1 w2 : World) (tracker : BaseCO2Tracker.t) (x : exn),
    (offline a = true -> country_iso_code a <> None) ->
    BaseCO2Tracker.start (corresponding_tracker env a) w
    = (Return tracker, w1) ->
    fn args kwargs w1 = (Raise x, w2) ->
    wrapped_fn env a readings fn args kwargs w = (Raise x, w2).
Proof.
  intros a readings fn args kwargs w w1 w2 tracker x Hguard Hstart Hfn.
  rewrite (wrapped_fn_past_guard env a readings fn args kwargs w Hguard).
  unfold start_fn_stop.
  unfold bind at 1. rewrite Hstart.
  unfold bind at 1. rewrite Hfn. reflexivity.
Qed.

(** X8.  Without power metering the decorated function still runs the
    function and returns [None]: around the function's own events there are
    the warning of [start] and the error record of [stop], and no record is
    written. *)
Theorem wrapped_fn_without_metering :
  forall (a : decorator_args) (readings : list Power.t) (fn : Callable)
         (args : list pyval) (kwargs : list (string * pyval))
         (w w2 : World) (value : pyval),
    is_gpu_details_available env = false ->
    (offline a = true -> country_iso_code a <> None) ->
    fn args kwargs (extend [LogWarning "No GPU available"] w)
    = (Return value, w2) ->
    wrapped_fn env a readings fn args kwargs w
    = (Return PyNone,
       extend [LogError "Need to first start the tracker"] w2).
Proof.
  intros a readings fn args kwargs w w2 value Hgpu Hguard Hfn.
  rewrite (wrapped_fn_past_guard env a readings fn args kwargs w Hguard).
  unfold start_fn_stop.
  assert (Hidle : BaseCO2Tracker._is_gpu_available
                    (corresponding_tracker env a) = false).
  { unfold corresponding_tracker. destruct (offline a); exact Hgpu. }
  assert (Hnone : BaseCO2Tracker._start_time (corresponding_tracker env a)
                  = None).
  { unfold corresponding_tracker. destruct (offline a); reflexivity. }
  assert (Hoff : BackgroundScheduler.running
                   (BaseCO2Tracker._scheduler (corresponding_tracker env a))
                 = false).
  { unfold corresponding_tracker. destruct (offline a); reflexivity. }
  unfold bind at 1. unfold BaseCO2Tracker.start at 1.
  rewrite Hidle. cbn [negb].
  unfold logger_warning. run_monad. rewrite Hfn.
  rewrite (sample_not_running readings _ Hoff).
  unfold BaseCO2Tracker.stop. rewrite Hnone. reflexivity.
Qed.

End DecoratorRuns.

Section OfflineRun.
Import BaseCO2Tracker.
Variable env : Env.

(** X9.  A whole offline run.  An [OfflineCO2Tracker] is built, started at
    one time, sampled, and stopped at a later time; when the calculator
    returns [e] for the energy sampled and the sink chosen at construction
    (the file [emissions.csv] of the output directory, or none) returns,
    [stop] returns [e] and writes one record to that sink: its duration is
    the time between the two calls, its energy the energy sampled, its
    country name the one given to the constructor, its country code the one
    given to the constructor in upper case, and it is marked as not on a
    cloud. *)
Theorem offline_run_record :
  forall (iso name project output_dir : string) (reg : option string)
         (secs : Z) (save_to_file : bool) (w0 w : World)
         (readings : list Power.t) (e : Q),
    let fresh :=
      OfflineCO2Tracker.__init__ env (Some iso) (Some name) reg
        project secs output_dir save_to_file in
    is_gpu_details_available env = true ->
    forall (started : t) (w1 : World),
      start fresh w0 = (Return started, w1) ->
      let sampled := sample readings started in
      get_private_infra_emissions env (_total_energy sampled)
        (GeoMetadata.__init__ iso (Some name) reg)
      = Return e ->
      sinks_return w
        (if save_to_file
         then [FileOutput (os_path_join output_dir "emissions.csv")]
         else []) ->
      fst (stop env sampled w) = Return (Some e, stopped sampled)
      /\ written (events (snd (stop env sampled w)))
         = (written (events w)
            ++ map (fun sink =>
                 (sink,
                  {| CO2Data.timestamp := datetime_now w;
                     CO2Data.experiment_id := uuid4 w;
                     CO2Data.project_name := project;
                     CO2Data.duration := time_time w - time_time w0;
                     CO2Data.emissions := e;
                     CO2Data.energy_consumed :=
                       Energy.kwh (_total_energy sampled);
                     CO2Data.country_name := Some name;
                     CO2Data.country_iso_code := Some (upper iso);
                     CO2Data.region := reg;
                     CO2Data.on_cloud := "N";
                     CO2Data.cloud_provider := Some "";
                     CO2Data.cloud_region := Some "" |}))
                 (if save_to_file
                  then [FileOutput (os_path_join output_dir "emissions.csv")]
                  else []))%list.
Proof.
  intros iso name project output_dir reg secs save_to_file w0 w readings e
         fresh Hgpu started w1 Hstart sampled Hcalc Hreturn.
  pose proof (start_fresh env (OfflineCO2Tracker iso name reg) project
                output_dir secs save_to_file w0 Hgpu) as Hfresh.
  cbv zeta in Hfresh. change (__init__ env _ _ _ _ _) with fresh in Hfresh.
  rewrite Hfresh in Hstart. inversion Hstart; subst started w1; clear Hstart.
  pose proof (sample_frame readings
                (set_scheduler (set_start_time fresh (Some (time_time w0)))
                   {| BackgroundScheduler.jobs := [secs];
                      BackgroundScheduler.running := true |})) as Hframe.
  fold sampled in Hframe.
  assert (Hstarted : _start_time sampled = Some (time_time w0))
    by (rewrite Hframe; reflexivity).
  assert (Hrunning : BackgroundScheduler.running (_scheduler sampled) = true)
    by (rewrite Hframe; reflexivity).
  assert (Hclass : class sampled = OfflineCO2Tracker iso name reg)
    by (rewrite Hframe; reflexivity).
  assert (Hsinks : persistence_objs sampled
                   = if save_to_file
                     then [FileOutput (os_path_join output_dir "emissions.csv")]
                     else [])
    by (rewrite Hframe; simpl; now destruct save_to_file).
  assert (Hproject : _project_name sampled = project)
    by (rewrite Hframe; reflexivity).
  assert (Hcloud : _get_cloud_metadata env sampled
                   = Return {| CloudMetadata.provider := None;
                               CloudMetadata.region := None |})
    by (unfold _get_cloud_metadata; now rewrite Hclass).
  assert (Hgeo : _get_geo_metadata env sampled
                 = Return (GeoMetadata.__init__ iso (Some name) reg))
    by (unfold _get_geo_metadata; now rewrite Hclass).
  rewrite <- Hsinks in Hreturn.
  rewrite (stop_started env sampled w (time_time w0) _ _ _
             Hstarted Hrunning Hreturn Hcloud Hgeo
             (fun w' => footprint_private env (stopped sampled)
                          {| CloudMetadata.provider := None;
                             CloudMetadata.region := None |}
                          _ e w' eq_refl Hcalc)).
  cbn [fst snd events extend]. split; [reflexivity|].
  rewrite written_app. f_equal. cbn [written app].
  rewrite written_outs, Hsinks, Hproject. reflexivity.
Qed.

End OfflineRun.

(** * Further properties of the cloud bar chart *)

Section BarChartFrame.
Import Data.

Lemma insert_by_emissions_perm (x : bar_row) (l : list bar_row) :
  Permutation (insert_by_emissions x l) (x :: l).
Proof.
  induction l as [|y l IH]; simpl; [apply Permutation_refl|].
  destruct (Qle_bool (emissions x) (emissions y)).
  - apply Permutation_refl.
  - eapply perm_trans; [apply perm_skip, IH | apply perm_swap].
Qed.

Lemma sort_values_by_emissions_perm (l : list bar_row) :
  Permutation (sort_values_by_emissions l) l.
Proof.
  induction l as [|x l IH]; simpl; [apply perm_nil|].
  eapply perm_trans; [apply insert_by_emissions_perm | now apply perm_skip].
Qed.

Lemma Qle_bool_false (a b : Q) : Qle_bool a b = false -> b <= a.
Proof.
  intro H. apply Qlt_le_weak, Qnot_le_lt. intro Hle.
  apply Qle_bool_iff in Hle. congruence.
Qed.

Lemma insert_by_emissions_sorted (x : bar_row) (l : list bar_row) :
  Sorted (fun a b => emissions a <= emissions b) l ->
  Sorted (fun a b => emissions a <= emissions b) (insert_by_emissions x l).
Proof.
  induction l as [|y l IH]; intro Hsorted; simpl.
  - repeat constructor.
  - destruct (Qle_bool (emissions x) (emissions y)) eqn:Hcmp.
    + constructor; [exact Hsorted|]. constructor.
      now apply Qle_bool_iff.
    + inversion Hsorted as [|? ? Hrest Hhead]; subst.
      constructor; [now apply IH|].
      destruct l as [|z l]; simpl.
      * constructor. now apply Qle_bool_false.
      * destruct (Qle_bool (emissions x) (emissions z)).
        -- constructor. now apply Qle_bool_false.
        -- constructor. now inversion Hhead.
Qed.

Lemma sort_values_by_emissions_sorted (l : list bar_row) :
  Sorted (fun a b => emissions a <= emissions b)
         (sort_values_by_emissions l).
Proof.
  induction l as [|x l IH]; simpl; [constructor|].
  now apply insert_by_emissions_sorted.
Qed.

(** X10.  For a run on a cloud, the method returns exactly when some row of
    the table has the run's region, whichever provider that row belongs to;
    when none has, it raises [IndexError]. *)
Theorem barchart_needs_the_region :
  forall (table : list cloud_row) (net : Q)
         (on_cloud cloud_provider cloud_region : string),
    String.eqb on_cloud "N" = false ->
    ((exists row, In row table /\ region row = cloud_region) ->
     exists (name : string) (frame : list bar_row),
       get_cloud_emissions_barchart_data table net
         on_cloud cloud_provider cloud_region
       = Return (name, frame))
    /\ ((forall row, In row table -> region row <> cloud_region) ->
        get_cloud_emissions_barchart_data table net
          on_cloud cloud_provider cloud_region
        = Raise (IndexError "single positional indexer is out-of-bounds")).
Proof.
  intros table net on_cloud cloud_provider cloud_region Hcloud.
  unfold get_cloud_emissions_barchart_data. rewrite Hcloud.
  destruct (filter _ (with_emissions net table)) as [|first rest] eqn:Hsel.
  - split; [|reflexivity].
    intros (row & Hin & Hregion). exfalso.
    assert (Hmem : In {| columns := row; emissions := row_emissions net row |}
                      (filter (fun r => String.eqb (region (columns r))
                                                   cloud_region)
                              (with_emissions net table))).
    { apply filter_In. split.
      - unfold with_emissions. apply in_map_iff. now exists row.
      - simpl. rewrite Hregion. apply String.eqb_refl. }
    rewrite Hsel in Hmem. destruct Hmem.
  - split; [intros _; eexists; eexists; reflexivity|].
    intro Hnone. exfalso.
    assert (Hmem : In first (filter (fun r => String.eqb (region (columns r))
                                                         cloud_region)
                                    (with_emissions net table)))
      by (rewrite Hsel; now left).
    apply filter_In in Hmem. destruct Hmem as [Hin Heq].
    apply with_emissions_In in Hin. destruct Hin as [Hin _].
    apply String.eqb_eq in Heq. exact (Hnone _ Hin Heq).
Qed.

(** X11.  The frame returned for a run on a cloud: first the rows of the
    run's region, in table order, then the rows of the run's provider in its
    other regions, in ascending order of emissions; no such row is lost or
    repeated, and the name returned is the provider name of the first row. *)
Theorem barchart_frame_layout :
  forall (table : list cloud_row) (net : Q)
         (on_cloud cloud_provider cloud_region name : string)
         (frame : list bar_row),
    String.eqb on_cloud "N" = false ->
    get_cloud_emissions_barchart_data table net
      on_cloud cloud_provider cloud_region
    = Return (name, frame) ->
    exists (first : bar_row) (here elsewhere : list bar_row),
      frame = ((first :: here) ++ elsewhere)%list
      /\ name = providerName (columns first)
      /\ first :: here
         = filter (fun r => String.eqb (region (columns r)) cloud_region)
                  (with_emissions net table)
      /\ Sorted (fun a b => emissions a <= emissions b) elsewhere
      /\ Permutation elsewhere
           (filter (fun r =>
                      andb (String.eqb (provider (columns r)) cloud_provider)
                           (negb (String.eqb (region (columns r))
                                             cloud_region)))
                   (with_emissions net table)).
Proof.
  intros table net on_cloud cloud_provider cloud_region name frame
         Hcloud Hrun.
  unfold get_cloud_emissions_barchart_data in Hrun. rewrite Hcloud in Hrun.
  destruct (filter _ (with_emissions net table)) as [|first rest] eqn:Hsel;
    [discriminate Hrun|].
  inversion Hrun; subst; clear Hrun.
  exists first, rest. eexists.
  split; [reflexivity|]. split; [reflexivity|]. split; [reflexivity|].
  split; [apply sort_values_by_emissions_sorted
         | apply sort_values_by_emissions_perm].
Qed.

End BarChartFrame.

(** * Properties of the project table and of its summary *)

Section ProjectTable.
Import Dashboard.

Lemma string_leb_trans (a b c : string) :
  String.leb a b = true -> String.leb b c = true -> String.leb a c = true.
Proof.
  unfold String.leb. revert b c.
  induction a as [|x a IH]; intros [|y b] [|z c]; simpl; try easy.
  intros Hab Hbc.
  destruct (Ascii.compare x y) eqn:Exy; try discriminate Hab.
  - apply Ascii.compare_eq_iff in Exy. subst y.
    destruct (Ascii.compare x z); try easy. now apply (IH b c).
  - destruct (Ascii.compare y z) eqn:Eyz; try discriminate Hbc.
    + apply Ascii.compare_eq_iff in Eyz. subst z. now rewrite Exy.
    + assert (Exz : Ascii.compare x z = Lt).
      { unfold Ascii.compare in *. rewrite N.compare_lt_iff in *.
        eapply N.lt_trans; eassumption. }
      now rewrite Exz.
Qed.

Lemma insert_by_timestamp_perm (x : CO2Data.t) (l : list CO2Data.t) :
  Permutation (insert_by_timestamp x l) (x :: l).
Proof.
  induction l as [|y l IH]; simpl; [apply Permutation_refl|].
  destruct (String.leb (CO2Data.timestamp x) (CO2Data.timestamp y)).
  - apply Permutation_refl.
  - eapply perm_trans; [apply perm_skip, IH | apply perm_swap].
Qed.

Lemma sort_values_by_timestamp_perm (l : list CO2Data.t) :
  Permutation (sort_values_by_timestamp l) l.
Proof.
  induction l as [|x l IH]; simpl; [apply perm_nil|].
  eapply perm_trans; [apply insert_by_timestamp_perm | now apply perm_skip].
Qed.

Lemma later_when_not_earlier (a b : CO2Data.t) :
  String.leb (CO2Data.timestamp a) (CO2Data.timestamp b) = false ->
  earlier b a.
Proof.
  intro H. unfold earlier.
  destruct (String.leb_total (CO2Data.timestamp a) (CO2Data.timestamp b));
    congruence.
Qed.

Lemma insert_by_timestamp_sorted (x : CO2Data.t) (l : list CO2Data.t) :
  Sorted earlier l -> Sorted earlier (insert_by_timestamp x l).
Proof.
  induction l as [|y l IH]; intro Hsorted; simpl.
  - repeat constructor.
  - destruct (String.leb (CO2Data.timestamp x) (CO2Data.timestamp y))
      eqn:Hcmp.
    + constructor; [exact Hsorted|]. now constructor.
    + inversion Hsorted as [|? ? Hrest Hhead]; subst.
      constructor; [now apply IH|].
      destruct l as [|z l]; simpl.
      * constructor. now apply later_when_not_earlier.
      * destruct (String.leb (CO2Data.timestamp x) (CO2Data.timestamp z)).
        -- constructor. now apply later_when_not_earlier.
        -- constructor. now inversion Hhead.
Qed.

Lemma sort_values_by_timestamp_sorted (l : list CO2Data.t) :
  Sorted earlier (sort_values_by_timestamp l).
Proof.
  induction l as [|x l IH]; simpl; [constructor|].
  now apply insert_by_timestamp_sorted.
Qed.

Lemma project_data_rows_aux (df : DataFrame) (project : string) :
  Permutation (data (get_project_data df project))
    (filter (fun row => String.eqb (CO2Data.project_name row) project) df)
  /\ Sorted earlier (data (get_project_data df project))
  /\ (forall row,
         In row (data (get_project_data df project))
         <-> In row df /\ CO2Data.project_name row = project).
Proof.
  cbn [get_project_data data].
  split; [apply sort_values_by_timestamp_perm|].
  split; [apply sort_values_by_timestamp_sorted|].
  intro row. split.
  - intro Hin.
    apply (Permutation_in _ (sort_values_by_timestamp_perm _)) in Hin.
    apply filter_In in Hin. destruct Hin as [Hin Heq].
    split; [exact Hin | now apply String.eqb_eq].
  - intros [Hin Heq].
    apply (Permutation_in _
             (Permutation_sym (sort_values_by_timestamp_perm _))).
    apply filter_In. split; [exact Hin | now apply String.eqb_eq].
Qed.

(** X12.  The table of a project holds the runs of the frame that carry the
    project's name, each as often as the frame has it and no other row, in
    ascending order of timestamp, under the twelve columns of a record. *)
Theorem project_data_rows :
  forall (df : DataFrame) (project : string),
    Permutation (data (get_project_data df project))
      (filter (fun row => String.eqb (CO2Data.project_name row) project) df)
    /\ Sorted earlier (data (get_project_data df project))
    /\ (forall row,
           In row (data (get_project_data df project))
           <-> In row df /\ CO2Data.project_name row = project)
    /\ map fst (columns (get_project_data df project)) = df_columns
    /\ map snd (columns (get_project_data df project)) = df_columns.
Proof.
  intros df project.
  destruct (project_data_rows_aux df project) as (Hperm & Hsorted & Hrows).
  repeat (split; [assumption|]). split; reflexivity.
Qed.

Lemma sum_map_from {A} (f : A -> Q) (xs : list A) (start : Q) :
  fold_left (fun acc x => acc + f x) xs start == start + sum_map f xs.
Proof.
  unfold sum_map. revert start.
  induction xs as [|x xs IH]; intro start; simpl.
  - ring.
  - rewrite IH, (IH (0 + f x)). ring.
Qed.

Lemma sum_map_app {A} (f : A -> Q) (xs ys : list A) :
  sum_map f (xs ++ ys) == sum_map f xs + sum_map f ys.
Proof.
  unfold sum_map at 1. rewrite fold_left_app. apply sum_map_from.
Qed.

Lemma sum_map_cons {A} (f : A -> Q) (x : A) (xs : list A) :
  sum_map f (x :: xs) == f x + sum_map f xs.
Proof.
  change (x :: xs) with ([x] ++ xs)%list. rewrite sum_map_app.
  unfold sum_map at 1. simpl. ring.
Qed.

Lemma sum_map_perm {A} (f : A -> Q) (xs ys : list A) :
  Permutation xs ys -> sum_map f xs == sum_map f ys.
Proof.
  induction 1 as [|x xs ys _ IH|x y xs|xs ys zs _ IH1 _ IH2].
  - reflexivity.
  - now rewrite !sum_map_cons, IH.
  - rewrite !sum_map_cons. ring.
  - now rewrite IH1.
Qed.

Lemma last_item_app {A} (xs : list A) (x : A) :
  last_item (xs ++ [x]) = Ok x.
Proof.
  unfold last_item. now rewrite rev_unit.
Qed.

Lemma get_project_summary_snoc (runs : list CO2Data.t) (latest : CO2Data.t) :
  get_project_summary (runs ++ [latest])
  = Ok {| last_run :=
            {| timestamp := CO2Data.timestamp latest;
               duration := CO2Data.duration latest;
               emissions := CO2Data.emissions latest;
               energy_consumed := CO2Data.energy_consumed latest |};
          total :=
            {| total_duration := sum_map CO2Data.duration (runs ++ [latest]);
               total_emissions :=
                 sum_map CO2Data.emissions (runs ++ [latest]);
               total_energy_consumed :=
                 sum_map CO2Data.energy_consumed (runs ++ [latest]) |};
          country_name := CO2Data.country_name latest;
          country_iso_code := CO2Data.country_iso_code latest;
          region := CO2Data.region latest;
          on_cloud := CO2Data.on_cloud latest;
          cloud_provider := CO2Data.cloud_provider latest;
          cloud_region := CO2Data.cloud_region latest |}.
Proof.
  unfold get_project_summary. now rewrite last_item_app.
Qed.

Lemma sum_map_snoc {A} (f : A -> Q) (xs : list A) (x : A) :
  sum_map f (xs ++ [x]) == sum_map f xs + f x.
Proof.
  rewrite sum_map_app, sum_map_cons. unfold sum_map at 2. simpl. ring.
Qed.

(** X13.  [get_project_summary] raises [IndexError] on an empty list of
    runs.  On a list that ends with a run it reports the figures and the
    labels of that run, and totals that are the sums over all the runs. *)
Theorem project_summary_of_runs :
  get_project_summary [] = Error (Raised (IndexError "list index out of range"))
  /\ forall (runs : list CO2Data.t) (latest : CO2Data.t),
       exists s : project_summary,
         get_project_summary (runs ++ [latest]) = Ok s
         /\ last_run s
            = {| timestamp := CO2Data.timestamp latest;
                 duration := CO2Data.duration latest;
                 emissions := CO2Data.emissions latest;
                 energy_consumed := CO2Data.energy_consumed latest |}
         /\ (country_name s, country_iso_code s, region s)
            = (CO2Data.country_name latest, CO2Data.country_iso_code latest,
               CO2Data.region latest)
         /\ (on_cloud s, cloud_provider s, cloud_region s)
            = (CO2Data.on_cloud latest, CO2Data.cloud_provider latest,
               CO2Data.cloud_region latest)
         /\ total_duration (total s)
            == sum_map CO2Data.duration runs + CO2Data.duration latest
         /\ total_emissions (total s)
            == sum_map CO2Data.emissions runs + CO2Data.emissions latest
         /\ total_energy_consumed (total s)
            == sum_map CO2Data.energy_consumed runs
               + CO2Data.energy_consumed latest.
Proof.
  split; [reflexivity|].
  intros runs latest. rewrite get_project_summary_snoc. eexists.
  split; [reflexivity|].
  cbn [last_run total country_name country_iso_code region on_cloud
       cloud_provider cloud_region total_duration total_emissions
       total_energy_consumed].
  repeat (split; [reflexivity|]).
  repeat split; apply sum_map_snoc.
Qed.

Lemma sorted_last_is_latest (init : list CO2Data.t) (latest : CO2Data.t) :
  Sorted earlier (init ++ [latest]) ->
  forall row, In row (init ++ [latest]) -> earlier row latest.
Proof.
  intros Hsorted.
  apply Sorted_StronglySorted in Hsorted.
  2: { intros a b c. unfold earlier. apply string_leb_trans. }
  induction init as [|x init IH]; intros row Hin.
  - destruct Hin as [<-|[]]. unfold earlier.
    destruct (String.leb_total (CO2Data.timestamp latest)
                               (CO2Data.timestamp latest)); assumption.
  - inversion Hsorted as [|? ? Hrest Hall]; subst.
    destruct Hin as [<-|Hin].
    + rewrite Forall_forall in Hall. apply Hall.
      apply in_or_app. right. now left.
    + now apply IH.
Qed.

(** X14.  The summary of the table of a project that has at least one run
    in the frame: the run reported as the last one is a run of the project,
    no run of the project has a later timestamp, and the total emissions are
    those of the project's runs in the frame. *)
Theorem summary_of_project_table :
  forall (df : DataFrame) (project : string) (run : CO2Data.t),
    In run df ->
    CO2Data.project_name run = project ->
    exists (s : project_summary) (latest : CO2Data.t),
      get_project_summary (data (get_project_data df project)) = Ok s
      /\ In latest df
      /\ CO2Data.project_name latest = project
      /\ timestamp (last_run s) = CO2Data.timestamp latest
      /\ emissions (last_run s) = CO2Data.emissions latest
      /\ (forall row,
             In row df -> CO2Data.project_name row = project ->
             String.leb (CO2Data.timestamp row) (timestamp (last_run s))
             = true)
      /\ total_emissions (total s)
         == sum_map CO2Data.emissions
              (filter (fun row =>
                         String.eqb (CO2Data.project_name row) project) df).
Proof.
  intros df project run Hin Hproject.
  destruct (project_data_rows_aux df project) as (Hperm & Hsorted & Hrows).
  assert (Hnonempty : data (get_project_data df project) <> []).
  { intro Hnil. assert (Hmem : In run (data (get_project_data df project)))
      by (apply Hrows; auto).
    rewrite Hnil in Hmem. destruct Hmem. }
  destruct (exists_last Hnonempty) as (init & latest & Hsplit).
  eexists. exists latest. rewrite Hsplit.
  split; [apply get_project_summary_snoc|].
  assert (Hlatest : In latest (data (get_project_data df project)))
    by (rewrite Hsplit; apply in_or_app; right; now left).
  apply Hrows in Hlatest. destruct Hlatest as [Hlin Hlproj].
  split; [exact Hlin|]. split; [exact Hlproj|].
  cbn [last_run total timestamp emissions total_emissions].
  split; [reflexivity|]. split; [reflexivity|]. split.
  - intros row Hrin Hrproj.
    assert (Hmem : In row (init ++ [latest]))
      by (rewrite <- Hsplit; apply Hrows; auto).
    rewrite Hsplit in Hsorted.
    exact (sorted_last_is_latest init latest Hsorted row Hmem).
  - rewrite <- Hsplit. now apply sum_map_perm.
Qed.

End ProjectTable.

(** * Properties of the two choropleth methods *)

Section Choropleths.
Import Dashboard.
Variable src : Sources.

Lemma global_loop_returns (net : Q) (mix : list (string * energy_mix)) :
  (forall iso entry,
      In (iso, entry) mix -> str_in iso ["_define"; "ATA"] = false ->
      Qeq_bool (mix_total entry) 0 = false
      /\ exists e, get_country_emissions src (Energy.from_energy net)
                     (GeoMetadata.__init__ iso (Some (countryName entry))
                        None) = Ok e) ->
  forall acc : list country_row,
  exists rows : list country_row,
    global_loop src net mix acc = Ok (acc ++ rows)%list
    /\ map iso_code rows
       = filter (fun iso => negb (str_in iso ["_define"; "ATA"]))
                (map fst mix)
    /\ forall row, In row rows ->
         exists entry, In (iso_code row, entry) mix
                       /\ country_row_of src net (iso_code row) entry row.
Proof.
  induction mix as [|[iso entry] mix IH]; intros Hgood acc.
  - exists []. cbn. rewrite app_nil_r. repeat split. intros row [].
  - assert (Hrest : forall iso0 entry0,
               In (iso0, entry0) mix ->
               str_in iso0 ["_define"; "ATA"] = false ->
               Qeq_bool (mix_total entry0) 0 = false
               /\ exists e, get_country_emissions src (Energy.from_energy net)
                     (GeoMetadata.__init__ iso0 (Some (countryName entry0))
                        None) = Ok e)
      by (intros; apply Hgood; [now right | assumption]).
    cbn [global_loop map fst filter].
    destruct (str_in iso ["_define"; "ATA"]) eqn:Hskip; cbn [negb].
    + destruct (IH Hrest acc) as (rows & Hrun & Hkeys & Hrows).
      exists rows. split; [exact Hrun|]. split; [exact Hkeys|].
      intros row Hin. destruct (Hrows row Hin) as (entry0 & Hmem & Hrow).
      exists entry0. split; [now right | exact Hrow].
    + destruct (Hgood iso entry (or_introl eq_refl) Hskip)
        as (Htotal & e & Hcalc).
      rewrite Hcalc. unfold formatted_energy_percentage. rewrite Htotal.
      cbn [and_then].
      match goal with
      | |- context [global_loop src net mix (acc ++ [?r])] =>
          destruct (IH Hrest (acc ++ [r])%list) as (rows & Hrun & Hkeys & Hrows);
          exists (r :: rows)
      end.
      split; [rewrite Hrun, <- app_assoc; reflexivity|].
      split; [cbn [map iso_code]; now rewrite Hkeys|].
      intros row [<-|Hin].
      * exists entry. split; [now left|]. unfold country_row_of. cbn.
        repeat split. exact Hcalc.
      * destruct (Hrows row Hin) as (entry0 & Hmem & Hrow).
        exists entry0. split; [now right | exact Hrow].
Qed.

Lemma global_loop_app (net : Q) (a b : list (string * energy_mix)) :
  forall acc : list country_row,
    global_loop src net (a ++ b) acc
    = (rows <~ global_loop src net a acc ;; global_loop src net b rows).
Proof.
  induction a as [|[iso entry] a IH]; intro acc; [reflexivity|].
  cbn [app global_loop].
  destruct (negb (str_in iso ["_define"; "ATA"])); [|apply IH].
  destruct (get_country_emissions src _ _) as [e|err]; [|reflexivity].
  cbn [and_then]. unfold formatted_energy_percentage.
  destruct (Qeq_bool (mix_total entry) 0); [reflexivity|].
  cbn [and_then]. apply IH.
Qed.

(** X15.  The world map data: when the energy mix table is returned, no
    listed country has a zero total and the calculator returns for each, the
    method returns one row per key of the table other than ["_define"] and
    ["ATA"], in the order of the table, each with the country's name, its
    emissions for the energy consumed and its four shares of the total, in
    percent, formatted to one decimal. *)
Theorem global_choropleth_rows :
  forall (net : Q) (mix : list (string * energy_mix)),
    get_global_energy_mix_data src = Ok mix ->
    (forall iso entry,
        In (iso, entry) mix -> str_in iso ["_define"; "ATA"] = false ->
        Qeq_bool (mix_total entry) 0 = false
        /\ exists e, get_country_emissions src (Energy.from_energy net)
                       (GeoMetadata.__init__ iso (Some (countryName entry))
                          None) = Ok e) ->
    exists rows : list country_row,
      get_global_emissions_choropleth_data src net = Ok rows
      /\ map iso_code rows
         = filter (fun iso => negb (str_in iso ["_define"; "ATA"]))
                  (map fst mix)
      /\ (forall row, In row rows ->
            iso_code row <> "_define" /\ iso_code row <> "ATA")
      /\ forall row, In row rows ->
           exists entry, In (iso_code row, entry) mix
                         /\ country_row_of src net (iso_code row) entry row.
Proof.
  intros net mix Hmix Hgood.
  destruct (global_loop_returns net mix Hgood []) as (rows & Hrun & Hkeys & Hrows).
  exists rows. unfold get_global_emissions_choropleth_data.
  rewrite Hmix. cbn [and_then]. split; [exact Hrun|].
  split; [exact Hkeys|]. split; [|exact Hrows].
  intros row Hin.
  assert (Hmem : In (iso_code row) (map iso_code rows))
    by now apply in_map.
  rewrite Hkeys in Hmem. apply filter_In in Hmem. destruct Hmem as [_ Hkept].
  split; intro Heq; rewrite Heq in Hkept; discriminate Hkept.
Qed.

(** X16.  A listed country whose total is zero makes the whole call
    fail.  When the countries listed before it have nonzero totals and the
    calculator returns for them and for it, the division of its first share
    by its total is reached and the call raises [ZeroDivisionError]: no row
    is returned for any country, whatever follows in the table. *)
Theorem global_choropleth_zero_total :
  forall (net : Q) (before after : list (string * energy_mix))
         (iso : string) (entry : energy_mix) (e : Q),
    get_global_energy_mix_data src = Ok (before ++ (iso, entry) :: after)%list ->
    (forall iso0 entry0,
        In (iso0, entry0) before -> str_in iso0 ["_define"; "ATA"] = false ->
        Qeq_bool (mix_total entry0) 0 = false
        /\ exists e0, get_country_emissions src (Energy.from_energy net)
                        (GeoMetadata.__init__ iso0 (Some (countryName entry0))
                           None) = Ok e0) ->
    str_in iso ["_define"; "ATA"] = false ->
    get_country_emissions src (Energy.from_energy net)
      (GeoMetadata.__init__ iso (Some (countryName entry)) None) = Ok e ->
    mix_total entry == 0 ->
    get_global_emissions_choropleth_data src net = Error ZeroDivisionError.
Proof.
  intros net before after iso entry e Hmix Hbefore Hkept Hcalc Hzero.
  unfold get_global_emissions_choropleth_data. rewrite Hmix. cbn [and_then].
  rewrite global_loop_app.
  destruct (global_loop_returns net before Hbefore []) as (rows & Hrun & _).
  rewrite Hrun. cbn [and_then global_loop].
  rewrite Hkept. cbn [negb]. rewrite Hcalc. cbn [and_then].
  unfold formatted_energy_percentage.
  apply Qeq_bool_iff in Hzero. rewrite Hzero. reflexivity.
Qed.

Lemma upper_char_U (c : ascii) :
  upper_char c = "U"%char -> c = "u"%char \/ c = "U"%char.
Proof.
  destruct c as [[] [] [] [] [] [] [] []]; vm_compute; intro H;
    first [discriminate H | now left | now right].
Qed.

Lemma upper_char_S (c : ascii) :
  upper_char c = "S"%char -> c = "s"%char \/ c = "S"%char.
Proof.
  destruct c as [[] [] [] [] [] [] [] []]; vm_compute; intro H;
    first [discriminate H | now left | now right].
Qed.

Lemma upper_char_A (c : ascii) :
  upper_char c = "A"%char -> c = "a"%char \/ c = "A"%char.
Proof.
  destruct c as [[] [] [] [] [] [] [] []]; vm_compute; intro H;
    first [discriminate H | now left | now right].
Qed.

Lemma upper_USA (iso : string) :
  upper iso = "USA" ->
  In iso ["usa"; "usA"; "uSa"; "uSA"; "Usa"; "UsA"; "USa"; "USA"].
Proof.
  destruct iso as [|c1 [|c2 [|c3 [|c4 rest]]]]; cbn [upper];
    intro H; try discriminate H.
  inversion H as [[H1 H2 H3]].
  destruct (upper_char_U c1 H1), (upper_char_S c2 H2), (upper_char_A c3 H3);
    subst; cbn; tauto.
Qed.

(** X17.  For a country code in ASCII that is not "USA" in some letter case,
    the regional map data is the single placeholder row with empty strings;
    neither the data source nor the calculator is consulted. *)
Theorem regional_choropleth_placeholder :
  forall (net : Q) (iso : string),
    is_ascii iso = true ->
    ~ In iso ["usa"; "usA"; "uSa"; "uSA"; "Usa"; "UsA"; "USa"; "USA"] ->
    forall other : Sources,
      get_regional_emissions_choropleth_data other net iso
      = Ok [ {| region_code := ""; region_name := "";
                region_emissions_cell := Blank |} ].
Proof.
  intros net iso _ Hnot other.
  unfold get_regional_emissions_choropleth_data.
  destruct (str_in (upper iso) ["USA"]) eqn:Hin; [|reflexivity].
  exfalso. apply Hnot, upper_USA.
  cbn in Hin. rewrite orb_false_r in Hin. now apply String.eqb_eq in Hin.
Qed.

Lemma regional_loop_returns (net : Q) (iso : string)
      (table : list (string * region_entry)) :
  (forall name entry,
      In (name, entry) table -> str_in name ["_unit"] = false ->
      exists e, get_region_emissions src (Energy.from_energy net)
                  (GeoMetadata.__init__ iso None (Some name)) = Ok e) ->
  forall acc : list region_row,
  exists rows : list region_row,
    regional_loop src net iso table acc = Ok (acc ++ rows)%list
    /\ map region_name rows
       = filter (fun name => negb (str_in name ["_unit"])) (map fst table)
    /\ forall row, In row rows ->
         exists entry e,
           In (region_name row, entry) table
           /\ region_code row = regionCode entry
           /\ region_emissions_cell row = Kgs e
           /\ get_region_emissions src (Energy.from_energy net)
                (GeoMetadata.__init__ iso None (Some (region_name row)))
              = Ok e.
Proof.
  induction table as [|[name entry] table IH]; intros Hgood acc.
  - exists []. cbn. rewrite app_nil_r. repeat split. intros row [].
  - assert (Hrest : forall name0 entry0,
               In (name0, entry0) table -> str_in name0 ["_unit"] = false ->
               exists e, get_region_emissions src (Energy.from_energy net)
                  (GeoMetadata.__init__ iso None (Some name0)) = Ok e)
      by (intros name0 entry0 Hin0 Hkept0;
          apply (Hgood name0 entry0); [now right | assumption]).
    cbn [regional_loop map fst filter].
    destruct (str_in name ["_unit"]) eqn:Hskip; cbn [negb].
    + destruct (IH Hrest acc) as (rows & Hrun & Hkeys & Hrows).
      exists rows. split; [exact Hrun|]. split; [exact Hkeys|].
      intros row Hin. destruct (Hrows row Hin) as (entry0 & e & Hmem & Hrow).
      exists entry0, e. split; [now right | exact Hrow].
    + destruct (Hgood name entry (or_introl eq_refl) Hskip) as (e & Hcalc).
      rewrite Hcalc. cbn [and_then].
      match goal with
      | |- context [regional_loop src net iso table (acc ++ [?r])] =>
          destruct (IH Hrest (acc ++ [r])%list)
            as (rows & Hrun & Hkeys & Hrows);
          exists (r :: rows)
      end.
      split; [rewrite Hrun, <- app_assoc; reflexivity|].
      split; [cbn [map region_name]; now rewrite Hkeys|].
      intros row [<-|Hin].
      * exists entry, e. cbn. split; [now left|]. repeat split. exact Hcalc.
      * destruct (Hrows row Hin) as (entry0 & e0 & Hmem & Hrow).
        exists entry0, e0. split; [now right | exact Hrow].
Qed.

(** X18.  For "USA" in any letter case the regional table is requested
    under the lower-case code "usa"; when it is returned and the calculator
    returns for each region, the method returns one row per key other than
    ["_unit"], in table order, with the region's code and the emissions the
    calculator gives for that region of the country of code "USA", the
    upper-case code held by the metadata it is given. *)
Theorem regional_choropleth_rows :
  forall (net : Q) (iso : string) (table : list (string * region_entry)),
    In iso ["usa"; "usA"; "uSa"; "uSA"; "Usa"; "UsA"; "USa"; "USA"] ->
    get_country_emissions_data src "usa" = Ok table ->
    (forall name entry,
        In (name, entry) table -> str_in name ["_unit"] = false ->
        exists e, get_region_emissions src (Energy.from_energy net)
                    {| GeoMetadata.country_iso_code := Some "USA";
                       GeoMetadata.country_name := None;
                       GeoMetadata.region := Some name |} = Ok e) ->
    exists rows : list region_row,
      get_regional_emissions_choropleth_data src net iso = Ok rows
      /\ map region_name rows
         = filter (fun name => negb (str_in name ["_unit"])) (map fst table)
      /\ forall row, In row rows ->
           exists entry e,
             In (region_name row, entry) table
             /\ region_code row = regionCode entry
             /\ region_emissions_cell row = Kgs e
             /\ get_region_emissions src (Energy.from_energy net)
                  {| GeoMetadata.country_iso_code := Some "USA";
                     GeoMetadata.country_name := None;
                     GeoMetadata.region := Some (region_name row) |} = Ok e.
Proof.
  intros net iso table Hiso Htable Hgood.
  assert (Hcase : str_in (upper iso) ["USA"] = true
                  /\ lower iso = "usa" /\ upper iso = "USA").
  { cbn in Hiso.
    repeat (destruct Hiso as [<-|Hiso];
            [split; [reflexivity | split; reflexivity]|]).
    destruct Hiso. }
  destruct Hcase as (Hupper & Hlower & Hcode).
  pose proof (regional_loop_returns net iso table) as Hloop.
  unfold GeoMetadata.__init__ in Hloop. rewrite Hcode in Hloop.
  destruct (Hloop Hgood []) as (rows & Hrun & Hrest).
  exists rows. split; [|exact Hrest].
  unfold get_regional_emissions_choropleth_data.
  rewrite Hupper, Hlower, Htable. exact Hrun.
Qed.

End Choropleths.

(** * Properties of [UserWithAuthDependency] *)

Section AuthDependency.
Import UserWithAuthDependency.
Variable User : Type.
Variable svc : Services User.

(** X19.  Building the dependency raises exactly when a cookie token is
    present and decoding it raises.  Otherwise it is built: without a cookie
    both users are [None]; with one, the authenticated user is the decoded
    payload, and the database user is the one the service returns for the
    payload's ["sub"], or [None] when there is no ["sub"] or the service
    raises. *)
Theorem dependency_outcomes :
  forall cookie_token : option string,
    (forall e : pyerror,
        __init__ svc cookie_token = Error e
        <-> exists token, cookie_token = Some token
                          /\ jwt_decode svc token = Error e)
    /\ (cookie_token = None ->
        __init__ svc cookie_token
        = Ok {| auth_user := None; db_user := None |})
    /\ forall (token : string) (payload : claims),
         cookie_token = Some token ->
         jwt_decode svc token = Ok payload ->
         exists found : option User,
           __init__ svc cookie_token
           = Ok {| auth_user := Some payload; db_user := found |}
           /\ forall user : User,
                found = Some user
                <-> exists sub, getitem payload "sub" = Ok sub
                                /\ get_user_by_id svc sub = Ok user.
Proof.
  intro cookie_token. split; [|split].
  - intro e. unfold __init__. destruct cookie_token as [token|].
    + destruct (jwt_decode svc token) as [payload|err] eqn:Hdecode;
        cbn [and_then].
      * split; [discriminate|].
        intros (token' & Heq & Herr). inversion Heq; subst. congruence.
      * split.
        -- intro H. inversion H; subst. now exists token.
        -- intros (token' & Heq & Herr). inversion Heq; subst. congruence.
    + cbn [and_then]. split; [discriminate|].
      intros (token & Heq & _). discriminate Heq.
  - intros ->. reflexivity.
  - intros token payload -> Hdecode. unfold __init__. rewrite Hdecode.
    cbn [and_then subject]. eexists. split; [reflexivity|].
    intro user.
    destruct (getitem payload "sub") as [sub|err] eqn:Hsub; cbn [and_then].
    + destruct (get_user_by_id svc sub) as [found|err] eqn:Hfound.
      * split.
        -- intro H. inversion H; subst. now exists sub.
        -- intros (sub' & Heq & Huser). inversion Heq; subst. congruence.
      * split; [discriminate|].
        intros (sub' & Heq & Huser). inversion Heq; subst. congruence.
    + split; [discriminate|]. intros (sub' & Heq & _). discriminate Heq.
Qed.

End AuthDependency.

(** * The further properties on concrete scenarios *)

Lemma stop_failure_after_shutdown_witness :
  BaseCO2Tracker.stop private_env french_tracker noon_without_directory
  = (Raise (CollaboratorError "FileNotFoundError: ./emissions.csv"),
     extend [SchedulerShutdown;
             EnergyRead (BaseCO2Tracker._total_energy french_tracker);
             EnergyRead (BaseCO2Tracker._total_energy french_tracker)]
       noon_without_directory)
  /\ (exists started : Q,
         BaseCO2Tracker._start_time french_tracker = Some started)
  /\ exists tail : list event,
       events (snd (BaseCO2Tracker.stop private_env french_tracker
                      noon_without_directory))
       = (events noon_without_directory ++ SchedulerShutdown :: tail)%list
       /\ written
            (events (snd (BaseCO2Tracker.stop private_env french_tracker
                            noon_without_directory)))
          = (written (events noon_without_directory) ++ written tail)%list.
Proof.
  split; [reflexivity|].
  destruct (stop_failure_after_shutdown private_env french_tracker
              noon_without_directory _ _ eq_refl)
    as (Hstarted & [(Hoff & _) | (_ & tail & Hevents & Hwritten & _)]).
  - discriminate Hoff.
  - split; [exact Hstarted|].
    exists tail. split; [exact Hevents | exact Hwritten].
Defined.

Lemma start_after_stop_does_not_resume_witness :
  fst (BaseCO2Tracker.stop private_env french_tracker noon)
  = Return (Some (Energy.kwh (BaseCO2Tracker._total_energy french_tracker)
                  * (1 # 2)),
            stopped french_tracker)
  /\ BaseCO2Tracker.sample [Power.from_watts 300] (stopped french_tracker)
     = stopped french_tracker.
Proof.
  split; [reflexivity|].
  destruct (start_after_stop_does_not_resume private_env french_tracker
              (stopped french_tracker) noon _ noon _ eq_refl)
    as (_ & _ & Hidle).
  apply Hidle.
Defined.

Lemma sample_never_decreases_witness :
  (forall power,
      In power [Power.from_watts 300; Power.from_watts 0] ->
      0 <= Power.watts power)
  /\ (0 <= BaseCO2Tracker._measure_power_secs french_tracker)%Z
  /\ Energy.kwh (BaseCO2Tracker._total_energy french_tracker)
     <= Energy.kwh
          (BaseCO2Tracker._total_energy
             (BaseCO2Tracker.sample
                [Power.from_watts 300; Power.from_watts 0] french_tracker)).
Proof.
  assert (Hreadings : forall power,
             In power [Power.from_watts 300; Power.from_watts 0] ->
             0 <= Power.watts power).
  { intros power [<-|[<-|[]]]; discriminate. }
  assert (Hsecs : (0 <= BaseCO2Tracker._measure_power_secs french_tracker)%Z)
    by discriminate.
  split; [exact Hreadings|]. split; [exact Hsecs|].
  exact (sample_never_decreases _ french_tracker Hreadings Hsecs).
Defined.

Lemma sampling_counts_from_start_witness :
  is_gpu_details_available private_env = true
  /\ exists (started : BaseCO2Tracker.t) (w1 : World),
       BaseCO2Tracker.start
         (BaseCO2Tracker.__init__ private_env BaseCO2Tracker.CO2Tracker
            "default" 15 "." true) morning
       = (Return started, w1)
       /\ BaseCO2Tracker._start_time started = Some (time_time morning)
       /\ Energy.kwh
            (BaseCO2Tracker._total_energy
               (BaseCO2Tracker.sample (repeat (Power.from_watts 300) 4)
                  started))
          == inject_Z (Z.of_nat 4) * Power.watts (Power.from_watts 300)
             * inject_Z 15 / 3600000.
Proof.
  split; [reflexivity|].
  destruct (sampling_counts_from_start private_env BaseCO2Tracker.CO2Tracker
              "default" "." 15 true morning (Power.from_watts 300) 4)
    as [_ Hstarted].
  exact (Hstarted eq_refl).
Defined.

Lemma offline_stop_ignores_network_witness :
  BaseCO2Tracker.class french_tracker
  = BaseCO2Tracker.OfflineCO2Tracker "FRA" "France" None
  /\ from_co2_tracker_utils private_env <> from_co2_tracker_utils cloud_env
  /\ BaseCO2Tracker.stop private_env french_tracker noon
     = BaseCO2Tracker.stop cloud_env french_tracker noon.
Proof.
  split; [reflexivity|]. split; [discriminate|].
  apply (offline_stop_ignores_network private_env cloud_env french_tracker
           noon "FRA" "France" None eq_refl).
  reflexivity.
Defined.

Lemma wrapped_fn_passes_exception_witness :
  (offline online_default = true -> country_iso_code online_default <> None)
  /\ wrapped_fn private_env online_default [Power.from_watts 300]
       crashing [] [] morning
     = (Raise (Exception "out of memory"), extend [SchedulerStart] morning).
Proof.
  assert (Hguard : offline online_default = true ->
                   country_iso_code online_default <> None)
    by (intro H; discriminate H).
  split; [exact Hguard|].
  apply (wrapped_fn_passes_exception private_env online_default
           [Power.from_watts 300] crashing [] [] morning
           (extend [SchedulerStart] morning) _ _ _ Hguard
           (start_fresh private_env BaseCO2Tracker.CO2Tracker
              "default" "." 15 true morning eq_refl)).
  reflexivity.
Defined.

Lemma wrapped_fn_without_metering_witness :
  is_gpu_details_available no_gpu_env = false
  /\ wrapped_fn no_gpu_env offline_usa [Power.from_watts 300]
       answer [] [] morning
     = (Return PyNone,
        extend [LogWarning "No GPU available";
                LogError "Need to first start the tracker"] morning).
Proof.
  split; [reflexivity|].
  rewrite (wrapped_fn_without_metering no_gpu_env offline_usa
             [Power.from_watts 300] answer [] [] morning
             (extend [LogWarning "No GPU available"] morning) (PyInt 42)
             eq_refl).
  - reflexivity.
  - intros _; discriminate.
  - reflexivity.
Defined.

Lemma offline_run_record_witness :
  is_gpu_details_available private_env = true
  /\ sinks_return noon [FileOutput (os_path_join "out" "emissions.csv")]
  /\ map (fun x => (fst x, CO2Data.duration (snd x),
                    CO2Data.country_iso_code (snd x)))
         (written
            (events
               (snd (BaseCO2Tracker.stop private_env
                       (BaseCO2Tracker.sample [Power.from_watts 300]
                          (BaseCO2Tracker.set_scheduler
                             (BaseCO2Tracker.set_start_time
                                (OfflineCO2Tracker.__init__ private_env
                                   (Some "fra") (Some "France") None
                                   "default" 15 "out" true)
                                (Some (time_time morning)))
                             {| BackgroundScheduler.jobs := [15%Z];
                                BackgroundScheduler.running := true |}))
                       noon))))
     = [(FileOutput "out/emissions.csv", 1060 - 1000, Some "FRA")].
Proof.
  assert (Hsinks : sinks_return noon
                     [FileOutput (os_path_join "out" "emissions.csv")])
    by (intros sink data _; reflexivity).
  split; [reflexivity|]. split; [exact Hsinks|].
  destruct (offline_run_record private_env "fra" "France" "default" "out"
              None 15 true morning noon [Power.from_watts 300] _ eq_refl
              _ _ (start_fresh private_env
                     (BaseCO2Tracker.OfflineCO2Tracker "fra" "France" None)
                     "default" "out" 15 true morning eq_refl)
              eq_refl Hsinks) as [_ Hwritten].
  etransitivity;
    [apply (f_equal (map (fun x => (fst x, CO2Data.duration (snd x),
                                    CO2Data.country_iso_code (snd x)))));
     exact Hwritten
    | reflexivity].
Defined.

Lemma barchart_needs_the_region_witness :
  String.eqb "Y" "N" = false
  /\ (forall row, In row cloud_table -> Data.region row <> "mars-1")
  /\ Data.get_cloud_emissions_barchart_data cloud_table 10
       "Y" "aws" "mars-1"
     = Raise (IndexError "single positional indexer is out-of-bounds").
Proof.
  assert (Hnone : forall row,
             In row cloud_table -> Data.region row <> "mars-1").
  { intros row [<-|[<-|[<-|[]]]]; discriminate. }
  split; [reflexivity|]. split; [exact Hnone|].
  destruct (barchart_needs_the_region cloud_table 10 "Y" "aws" "mars-1"
              eq_refl) as [_ Hraises].
  exact (Hraises Hnone).
Defined.

Lemma barchart_frame_layout_witness :
  exists (first : Data.bar_row) (here elsewhere : list Data.bar_row),
    map (fun r => Data.region (Data.columns r))
        ((first :: here) ++ elsewhere)
    = ["us-east-1"; "eu-west-3"]
    /\ Sorted (fun a b => Data.emissions a <= Data.emissions b) elsewhere.
Proof.
  destruct (barchart_frame_layout cloud_table 10 "Y" "aws" "us-east-1"
              _ _ eq_refl eq_refl)
    as (first & here & elsewhere & Hframe & _ & _ & Hsorted & _).
  exists first, here, elsewhere. split; [|exact Hsorted].
  rewrite <- Hframe. reflexivity.
Defined.

Lemma summary_of_project_table_witness :
  In (run_at "2020-11-01T08:00:00" "default" (3 # 800)) three_runs
  /\ exists s : Dashboard.project_summary,
       Dashboard.get_project_summary
         (Dashboard.data (Dashboard.get_project_data three_runs "default"))
       = Ok s
       /\ Dashboard.timestamp (Dashboard.last_run s) = "2020-11-03T09:01:00"
       /\ Dashboard.total_emissions (Dashboard.total s) == 1 # 200.
Proof.
  assert (Hin : In (run_at "2020-11-01T08:00:00" "default" (3 # 800))
                   three_runs) by (right; right; now left).
  split; [exact Hin|].
  destruct (summary_of_project_table three_runs "default" _ Hin eq_refl)
    as (s & latest & Hs & _ & _ & _ & _ & _ & Htotal).
  exists s. split; [exact Hs|].
  vm_compute in Hs. inversion Hs; subst s. split; reflexivity.
Defined.

Lemma global_choropleth_rows_witness :
  exists rows : list Dashboard.country_row,
    Dashboard.get_global_emissions_choropleth_data atlas 10 = Ok rows
    /\ map Dashboard.iso_code rows = ["FRA"; "USA"].
Proof.
  destruct (global_choropleth_rows atlas 10 world_mix eq_refl)
    as (rows & Hrun & Hkeys & _).
  - intros iso entry Hin Hkept.
    destruct Hin as [H|[H|[H|[H|[]]]]]; inversion H; subst;
      try discriminate Hkept; split; try reflexivity; eexists; reflexivity.
  - exists rows. split; [exact Hrun | exact Hkeys].
Defined.

Lemma global_choropleth_zero_total_witness :
  Dashboard.get_global_energy_mix_data atlas_with_gap
  = Ok (world_mix ++ ("XXX", mix_of "Nowhere" 0 0 0 0 0) :: [])%list
  /\ Dashboard.mix_total (mix_of "Nowhere" 0 0 0 0 0) == 0
  /\ Dashboard.get_global_emissions_choropleth_data atlas_with_gap 10
     = Error ZeroDivisionError.
Proof.
  split; [reflexivity|]. split; [reflexivity|].
  apply (global_choropleth_zero_total atlas_with_gap 10 world_mix []
           "XXX" (mix_of "Nowhere" 0 0 0 0 0)
           (Energy.kwh (Energy.from_energy 10) * (1 # 2)) eq_refl).
  - intros iso entry Hin Hkept.
    destruct Hin as [H|[H|[H|[H|[]]]]]; inversion H; subst;
      try discriminate Hkept; split; try reflexivity; eexists; reflexivity.
  - reflexivity.
  - reflexivity.
  - reflexivity.
Defined.

Lemma regional_choropleth_placeholder_witness :
  Dashboard.get_regional_emissions_choropleth_data no_sources 10 "FRA"
  = Ok [ {| Dashboard.region_code := ""; Dashboard.region_name := "";
            Dashboard.region_emissions_cell := Dashboard.Blank |} ].
Proof.
  refine (regional_choropleth_placeholder 10 "FRA" eq_refl _ no_sources).
  cbn. intros [H|[H|[H|[H|[H|[H|[H|[H|[]]]]]]]]]; discriminate H.
Defined.

Lemma regional_choropleth_rows_witness :
  exists rows : list Dashboard.region_row,
    Dashboard.get_regional_emissions_choropleth_data atlas 10 "Usa" = Ok rows
    /\ map Dashboard.region_name rows = ["california"; "texas"].
Proof.
  destruct (regional_choropleth_rows atlas 10 "Usa" us_regions)
    as (rows & Hrun & Hkeys & _).
  - cbn. tauto.
  - reflexivity.
  - intros name entry _ _. eexists. reflexivity.
  - exists rows. split; [exact Hrun | exact Hkeys].
Defined.

Lemma dependency_outcomes_witness :
  UserWithAuthDependency.__init__ one_user (Some "header.payload.signature")
  = Ok {| UserWithAuthDependency.auth_user :=
            Some [("email", PyStr "a@b.c"); ("sub", PyStr "42")];
          UserWithAuthDependency.db_user := Some "alice" |}
  /\ UserWithAuthDependency.__init__ one_user None
     = Ok {| UserWithAuthDependency.auth_user := None;
             UserWithAuthDependency.db_user := None |}.
Proof.
  split; [reflexivity|].
  destruct (dependency_outcomes string one_user None) as (_ & Hnone & _).
  exact (Hnone eq_refl).
Defined.
